(** * sphinxcontrib-jupyter: the tree-to-cell-stream translators

    A shallow embedding of [writers/translate_code.py]
    (class [JupyterCodeTranslator]) and [writers/translate_all.py]
    (class [JupyterTranslator]), and the properties of the translation
    that the specification states.

    Conventions.
    - A Python [str] is a [string]; every [ascii] stands for one code
      point below 256.
    - A Python [list] is a [list]; [append] adds at the end, [l[-1]] is
      [last l] and [pop()] removes the last element, both failing with
      [IndexError] on the empty list.
    - A [dict] of the configuration is a [gmap string _].
    - The visitor object [self] is a record; a method is a computation in
      a state-and-exception monad over that record. *)

From Stdlib Require Import Ascii String ZArith Lia.
From stdpp Require Import base option list gmap strings.

Set Warnings "-register-all".

Local Open Scope string_scope.
Local Open Scope list_scope.
Local Open Scope Z_scope.
Local Open Scope nat_scope.

(** * Python built-ins used by the translators *)

Module Py.

(** The line feed, ["\n"]. *)
Definition LF : ascii := ascii_of_nat 10.
Definition nl : string := String LF EmptyString.

(** [str.isspace] on one code point below 256; [str.strip] and the
    regular expression class [\s] both use it. *)
Definition isspace (c : ascii) : bool :=
  let n := nat_of_ascii c in
  ((9 <=? n) && (n <=? 13)) || ((28 <=? n) && (n <=? 32))
  || (n =? 133) || (n =? 160).

Fixpoint lstrip (s : string) : string :=
  match s with
  | EmptyString => EmptyString
  | String c r => if isspace c then lstrip r else s
  end.

Fixpoint rstrip (s : string) : string :=
  match s with
  | EmptyString => EmptyString
  | String c r =>
      match rstrip r with
      | EmptyString => if isspace c then EmptyString else String c EmptyString
      | r' => String c r'
      end
  end.

(** [s.strip()] *)
Definition strip (s : string) : string := rstrip (lstrip s).

(** [s.split(sep)] for a separator of one character. *)
Fixpoint split (sep : ascii) (s : string) : list string :=
  match s with
  | EmptyString => [EmptyString]
  | String c r =>
      if Ascii.eqb c sep then EmptyString :: split sep r
      else match split sep r with
           | h :: t => String c h :: t
           | [] => [String c EmptyString]
           end
  end.

(** [sep.join(l)] *)
Definition join (sep : string) (l : list string) : string :=
  String.concat sep l.

(** [s.replace(old, new)] for [old] of one character. *)
Fixpoint replace (old : ascii) (new : string) (s : string) : string :=
  match s with
  | EmptyString => EmptyString
  | String c r =>
      if Ascii.eqb c old then new +:+ replace old new r
      else String c (replace old new r)
  end.

(** [c in s] for [c] of one character. *)
Fixpoint contains (c : ascii) (s : string) : bool :=
  match s with
  | EmptyString => false
  | String d r => Ascii.eqb d c || contains c r
  end.

(** [s * n] for an [int] [n]: empty when [n <= 0]. *)
Definition repeat (s : string) (n : Z) : string :=
  String.concat EmptyString (replicate (Z.to_nat n) s).

(** [s[-1]], which fails on the empty string. *)
Fixpoint last_char (s : string) : option ascii :=
  match s with
  | EmptyString => None
  | String c r =>
      match r with
      | EmptyString => Some c
      | String _ _ => last_char r
      end
  end.

(** [s[:-1]] *)
Fixpoint drop_last (s : string) : string :=
  match s with
  | EmptyString => EmptyString
  | String c r =>
      match r with
      | EmptyString => EmptyString
      | String _ _ => String c (drop_last r)
      end
  end.

(** [l[:-1]] *)
Definition init {A} (l : list A) : list A := removelast l.

(** [l.insert(i, x)] for [i >= 0]: past the end it appends. *)
Definition insert {A} (i : nat) (x : A) (l : list A) : list A :=
  take i l ++ x :: drop i l.

(** [re.sub(r"\s", to, s)]: every white-space character, one at a time,
    is replaced by [to]. *)
Fixpoint re_sub_space (to : string) (s : string) : string :=
  match s with
  | EmptyString => EmptyString
  | String c r =>
      if isspace c then to +:+ re_sub_space to r
      else String c (re_sub_space to r)
  end.

(** The greedy prefix matched by [[^c]*]. *)
Fixpoint span_not (c : ascii) (s : string) : string * string :=
  match s with
  | EmptyString => (EmptyString, EmptyString)
  | String d r =>
      if Ascii.eqb d c then (EmptyString, s)
      else let '(a, b) := span_not c r in (String d a, b)
  end.

End Py.

(** * nbformat.v4 notebook nodes *)

Module Nb.

(** A notebook node: a cell of the cell stream, or the captured output
    attached to a code cell. *)
Inductive NotebookNode : Type :=
| markdown_cell (source : string)
| code_cell (source : string) (outputs : list NotebookNode)
| stream_output (text : string).

Definition new_markdown_cell (source : string) : NotebookNode :=
  markdown_cell source.

Definition new_code_cell (source : string) : NotebookNode :=
  code_cell source [].

Definition new_output (text : string) : NotebookNode :=
  stream_output text.

(** The attribute [cell_type]; an output has none. *)
Definition cell_type (c : NotebookNode) : option string :=
  match c with
  | markdown_cell _ => Some "markdown"
  | code_cell _ _ => Some "code"
  | stream_output _ => None
  end.

(** The body of a cell. *)
Definition source (c : NotebookNode) : string :=
  match c with
  | markdown_cell b => b
  | code_cell b _ => b
  | stream_output b => b
  end.

(** [kernelspec] record of the notebook metadata. *)
Definition Kernelspec : Type := gmap string string.

(** The notebook under construction: [output["cells"]] and
    [output.metadata.kernelspec]. *)
Record Notebook : Type := mkNotebook {
  cells : list NotebookNode;
  kernelspec : option Kernelspec
}.

Definition new_notebook : Notebook := mkNotebook [] None.

End Nb.
Export Nb.

(** * Exceptions, the reporter and the monad of the visitor methods *)

Inductive Exception : Type :=
| IndexError
| KeyError
| TypeError
| AttributeError.

(** What [document.reporter] receives. The text of a message is kept as a
    constructor with the values formatted into it. *)
Inductive Message : Type :=
| HighlightingLanguageNotGiven
| InvalidJupyterHeaders (lang : option string)
| InvalidJupyterKernels (lang : option string)
| HighlightingLanguageNotDefined (lang : string)
| OutputAfterNonCodeCell (cell_type : string)
| MultipleOutputBlocks
| InvalidReference.

Inductive Report : Type :=
| Warning (m : Message)
| Error (m : Message).

(** The result of running a method on the visitor [self : S]: it returns
    a value and leaves [self] in a new state, or it raises. *)
Inductive Outcome (S A : Type) : Type :=
| Return (a : A) (self : S)
| Raised (e : Exception).
Arguments Return {S A} a self.
Arguments Raised {S A} e.

Definition M (S A : Type) : Type := S -> Outcome S A.

Definition ret {S A} (a : A) : M S A := fun s => Return a s.

Definition bind {S A B} (m : M S A) (k : A -> M S B) : M S B :=
  fun s => match m s with
           | Return a s' => k a s'
           | Raised e => Raised e
           end.

Definition raise {S A} (e : Exception) : M S A := fun _ => Raised e.

(** Read an attribute of [self]. *)
Definition gets {S A} (f : S -> A) : M S A := fun s => Return (f s) s.

(** Assign to [self]. *)
Definition modify {S} (f : S -> S) : M S unit := fun s => Return tt (f s).

(** A value that Python obtains by an operation that may fail. *)
Definition orRaise {S A} (e : Exception) (o : option A) : M S A :=
  match o with
  | Some a => ret a
  | None => raise e
  end.

Declare Scope py_scope.
Delimit Scope py_scope with py.
Notation "x <- c ;; k" := (bind c (fun x => k))
  (at level 100, c at next level, right associativity) : py_scope.
Notation "c ;; k" := (bind c (fun _ => k))
  (at level 100, right associativity) : py_scope.
Local Open Scope py_scope.

(** * The helpers of [writers/utils.py] *)

(** The members of the enumeration [JupyterOutputCellGenerators]. *)
Inductive JupyterOutputCellGenerators : Type :=
| CODE
| MARKDOWN
| CODE_OUTPUT.

(** Modelled from the spec: [utils.py] is not among the sources. Its
    [LanguageTranslator.translate] is the Language Normalizer, a pure
    function from a declared language tag to a kernel language tag (the
    argument is whatever [self.lang] holds, [None] included);
    [GetGeneratorFromClasses] is the Output-Cell Strategy Selector, from the
    declared classes of a block to one of the three strategies. Both are
    external collaborators of the core, so they are left abstract, and so
    is the markdown text that the MARKDOWN strategy makes of a block. *)
Class Utils : Type := {
  translate : option string -> option string;
  GetGeneratorFromClasses : list string -> JupyterOutputCellGenerators;
  markdown_rendering : option string -> string -> string
}.

(** Modelled from the spec: [JupyterOutputCellGenerators.Generate], a
    strategy materializing a buffer of text into a notebook cell structure:
    CODE gives a code cell with that body and no output, MARKDOWN a markdown
    cell, CODE_OUTPUT the output record that is attached to a code cell. *)
Definition Generate `{Utils} (g : JupyterOutputCellGenerators)
    (formatted_text : string) (nodelang : option string) : NotebookNode :=
  match g with
  | CODE => new_code_cell formatted_text
  | MARKDOWN => new_markdown_cell (markdown_rendering nodelang formatted_text)
  | CODE_OUTPUT => new_output formatted_text
  end.

(** * The document tree *)

(** A docutils node with the attributes that the translators read. An
    attribute that may be absent is an [option]; [number] of a
    [displaymath] is [str(node["number"])]; [other] is any node class
    for which the visitor defines no method, handled by [default_visit]
    and [default_departure]. *)
Inductive Node : Type :=
| document
| topic
| section
| Text (astext : string)
| image (uri : string)
| math (latex : string)
| displaymath (latex : string) (ids : list string) (number : string)
| raw
| paragraph
| title
| emphasis
| strong
| figure
| reference (refuri : option string) (internal : option bool) (refid : option string)
| target (refid : option string)
| bullet_list
| enumerated_list
| list_item
| definition_list
| term
| definition
| field_list
| field_name
| field_body
| citation (ids : option (list string))
| label
| literal_block (classes : list string) (language : option string)
| highlightlang (lang : string)
| other (tagname : string).

Inductive Doctree : Type :=
| Tree (node : Node) (children : list Doctree).

(** What the traversal engine calls, in order. *)
Inductive Event : Type :=
| Visit (node : Node)
| Depart (node : Node).

(** [node.walkabout(visitor)]: visit, then the children, then depart. *)
Fixpoint walkabout (t : Doctree) : list Event :=
  match t with
  | Tree n children =>
      Visit n :: flat_map walkabout children ++ [Depart n]
  end.

(** * [JupyterCodeTranslator] (translate_code.py) *)

Module JupyterCodeTranslator.

(** [builder.config], and what the constructor reads from its
    environment: the files under the template paths, the clock and the
    name of the source file. *)
Record Builder : Type := mkBuilder {
  templates_path : list string;
  config_jupyter_kernels : option (gmap string (gmap string Kernelspec));
  config_jupyter_headers : option (gmap string (list NotebookNode));
  config_jupyter_write_metadata : bool;
  jupyter_python_autosave : bool;
  jupyter_welcome_block : string;
  (** [os.path.isfile] and the text of the file, by path *)
  files : string -> option string;
  (** [datetime.datetime.now()] formatted as [%Y-%m-%d %H:%M:%S] *)
  now : string;
  (** [get_source_file_name(settings._source, settings.env.srcdir)] *)
  config_source_file_name : string
}.

(** [URI_SPACE_REPLACE_FROM] is the class [\s] of one white-space
    character, which [Py.re_sub_space] replaces. *)
Definition URI_SPACE_REPLACE_TO : string := "-".

(** The attributes of [self]. *)
Record self : Type := mkSelf {
  lang : option string;
  nodelang : option string;
  reporter : list Report;
  source_file_name : string;
  default_lang : string;
  output : Notebook;
  jupyter_kernels : option (gmap string (gmap string Kernelspec));
  jupyter_headers : option (gmap string (list NotebookNode));
  jupyter_write_metadata : bool;
  in_code_block : bool;
  output_cell_type : option JupyterOutputCellGenerators;
  code_lines : list string
}.

Definition set_lang (v : option string) (s : self) : self :=
  mkSelf v (nodelang s) (reporter s) (source_file_name s) (default_lang s)
    (output s) (jupyter_kernels s) (jupyter_headers s)
    (jupyter_write_metadata s) (in_code_block s) (output_cell_type s)
    (code_lines s).

Definition set_nodelang (v : option string) (s : self) : self :=
  mkSelf (lang s) v (reporter s) (source_file_name s) (default_lang s)
    (output s) (jupyter_kernels s) (jupyter_headers s)
    (jupyter_write_metadata s) (in_code_block s) (output_cell_type s)
    (code_lines s).

Definition set_reporter (v : list Report) (s : self) : self :=
  mkSelf (lang s) (nodelang s) v (source_file_name s) (default_lang s)
    (output s) (jupyter_kernels s) (jupyter_headers s)
    (jupyter_write_metadata s) (in_code_block s) (output_cell_type s)
    (code_lines s).

Definition set_output (v : Notebook) (s : self) : self :=
  mkSelf (lang s) (nodelang s) (reporter s) (source_file_name s)
    (default_lang s) v (jupyter_kernels s) (jupyter_headers s)
    (jupyter_write_metadata s) (in_code_block s) (output_cell_type s)
    (code_lines s).

Definition set_in_code_block (v : bool) (s : self) : self :=
  mkSelf (lang s) (nodelang s) (reporter s) (source_file_name s)
    (default_lang s) (output s) (jupyter_kernels s) (jupyter_headers s)
    (jupyter_write_metadata s) v (output_cell_type s) (code_lines s).

Definition set_output_cell_type (v : option JupyterOutputCellGenerators)
    (s : self) : self :=
  mkSelf (lang s) (nodelang s) (reporter s) (source_file_name s)
    (default_lang s) (output s) (jupyter_kernels s) (jupyter_headers s)
    (jupyter_write_metadata s) (in_code_block s) v (code_lines s).

Definition set_code_lines (v : list string) (s : self) : self :=
  mkSelf (lang s) (nodelang s) (reporter s) (source_file_name s)
    (default_lang s) (output s) (jupyter_kernels s) (jupyter_headers s)
    (jupyter_write_metadata s) (in_code_block s) (output_cell_type s) v.

(** [self.output["cells"] = v] *)
Definition set_cells (v : list NotebookNode) (s : self) : self :=
  set_output (mkNotebook v (kernelspec (output s))) s.

(** [self.output.metadata.kernelspec = v] *)
Definition set_kernelspec (v : Kernelspec) (s : self) : self :=
  set_output (mkNotebook (cells (output s)) (Some v)) s.

(** [self.warn(m)] and [self.error(m)] *)
Definition warn (m : Message) : M self unit :=
  modify (fun s => set_reporter (reporter s ++ [Warning m]) s).

Definition error (m : Message) : M self unit :=
  modify (fun s => set_reporter (reporter s ++ [Error m]) s).

(** ** General methods *)

(** The loop of [strip_blank_lines_in_end_of_block]: at most [n] times,
    drop the last line while it is blank. [n] is the number of lines at
    the start, so [lines[-1]] is never read on an empty list. *)
Fixpoint strip_loop (n : nat) (lines : list string) : list string :=
  match n with
  | O => lines
  | S n' =>
      match last lines with
      | Some l =>
          if String.length (Py.strip l) =? 0
          then strip_loop n' (Py.init lines)
          else lines
      | None => lines
      end
  end.

Definition strip_blank_lines_in_end_of_block (line_text : string) : string :=
  let lines := Py.split Py.LF line_text in
  Py.join Py.nl (strip_loop (length lines) lines).

(** ** The constructor *)

(** The loop over the template paths: the last path under which the
    welcome block is a file wins. ([os.path.normpath] only rewrites the
    path, the file read is the one found.) *)
Definition full_path_to_welcome (b : Builder) : option string :=
  foldl (fun found template_path =>
           let path := template_path +:+ "/" +:+ jupyter_welcome_block b in
           match files b path with
           | Some _ => Some path
           | None => found
           end)
        None (templates_path b).

Definition meta_text (b : Builder) : string :=
  "Notebook created: " +:+ now b +:+ "  " +:+ Py.nl +:+
  "Generated from: " +:+ config_source_file_name b +:+ "  ".

(** [__init__(builder, document)]. Assigning [jupyter_headers['python3']]
    fails when no headers are configured. *)
Definition init (b : Builder) : Exception + self :=
  match
    (if jupyter_python_autosave b then Some (config_jupyter_headers b)
     else match config_jupyter_headers b with
          | Some h => Some (Some (<["python3" := []]> h))
          | None => None
          end)
  with
  | None => inl TypeError
  | Some headers =>
      let welcome :=
        match full_path_to_welcome b with
        | Some path =>
            match files b path with
            | Some line_text =>
                [new_markdown_cell
                   (strip_blank_lines_in_end_of_block line_text)]
            | None => []
            end
        | None => []
        end in
      let metadata :=
        if config_jupyter_write_metadata b
        then [new_markdown_cell (meta_text b)] else [] in
      inr {|
        lang := None;
        nodelang := None;
        reporter := [];
        source_file_name := config_source_file_name b;
        default_lang := "python3";
        output := mkNotebook (welcome ++ metadata) None;
        jupyter_kernels := config_jupyter_kernels b;
        jupyter_headers := headers;
        jupyter_write_metadata := config_jupyter_write_metadata b;
        in_code_block := false;
        output_cell_type := None;
        code_lines := []
      |}
  end.

Section Methods.
Context `{Utils}.

(** Truth value of [self.lang]: [None] and the empty string are false. *)
Definition truthy (l : option string) : bool :=
  match l with
  | Some (String _ _) => true
  | _ => false
  end.

(** ** Sections *)

Definition visit_document : M self unit :=
  modify (fun s => set_lang (Some (default_lang s)) s).

(** The loop [for h in self.jupyter_headers[self.lang][::-1]]. *)
Definition insert_headers (write_metadata : bool)
    (headers : list NotebookNode) (cells : list NotebookNode)
    : list NotebookNode :=
  foldl (fun cells h =>
           if write_metadata then Py.insert 1 h cells
           else Py.insert 0 h cells)
        cells (reverse headers).

Definition depart_document : M self unit :=
  l <- gets lang ;;
  (if truthy l then ret tt
   else warn HighlightingLanguageNotGiven ;;
        modify (fun s => set_lang (Some (default_lang s)) s)) ;;
  (* Header (insert after metadata) *)
  l <- gets lang ;;
  headers <- gets jupyter_headers ;;
  match headers with
  | Some headers =>
      match l ≫= (fun l => headers !! l) with
      | Some hs =>
          modify (fun s =>
            set_cells
              (insert_headers (jupyter_write_metadata s) hs
                 (cells (output s))) s)
      | None => warn (InvalidJupyterHeaders l)
      end
  | None => ret tt
  end ;;
  (* Update metadata *)
  kernels <- gets jupyter_kernels ;;
  match kernels with
  | Some kernels =>
      entry <- orRaise KeyError (l ≫= (fun l => kernels !! l)) ;;
      match entry !! "kernelspec" with
      | Some k => modify (set_kernelspec k)
      | None => warn (InvalidJupyterKernels l)
      end
  | None => ret tt
  end.

Definition visit_highlightlang (node_lang : string) : M self unit :=
  let lang := Py.strip node_lang in
  kernels <- gets jupyter_kernels ;;
  kernels <- orRaise TypeError kernels ;;
  match kernels !! lang with
  | Some _ => modify (set_lang (Some lang))
  | None =>
      warn (HighlightingLanguageNotDefined lang) ;;
      modify (fun s => set_lang (Some (default_lang s)) s)
  end.

(** ** Inline elements *)

Definition visit_Text (text : string) : M self unit :=
  b <- gets in_code_block ;;
  if b then modify (fun s => set_code_lines (code_lines s ++ [text]) s)
  else ret tt.

(** ** Code blocks *)

Definition visit_literal_block (classes : list string)
    (language : option string) : M self unit :=
  modify (set_output_cell_type (Some (GetGeneratorFromClasses classes))) ;;
  modify (fun s =>
    set_nodelang
      (match language with
       | Some l => Some (Py.strip l)
       | None => lang s
       end) s) ;;
  (* Translate the language name across from the Sphinx to the Jupyter
     namespace *)
  modify (fun s => set_nodelang (translate (nodelang s)) s) ;;
  modify (set_in_code_block true) ;;
  modify (set_code_lines []) ;;
  (* A block in a language other than the default one is not made a
     code block: it is turned into markup instead. *)
  nl <- gets nodelang ;;
  l <- gets lang ;;
  if bool_decide (nl <> translate l)
  then modify (set_output_cell_type (Some MARKDOWN))
  else ret tt.

Definition depart_literal_block : M self unit :=
  lines <- gets code_lines ;;
  let line_text := Py.join EmptyString lines in
  let formatted_line_text := strip_blank_lines_in_end_of_block line_text in
  t <- gets output_cell_type ;;
  t <- orRaise AttributeError t ;;
  nl <- gets nodelang ;;
  let new_code_cell := Generate t formatted_line_text nl in
  match t with
  | CODE_OUTPUT =>
      cs <- gets (fun s => cells (output s)) ;;
      most_recent_cell <- orRaise IndexError (last cs) ;;
      match most_recent_cell with
      | code_cell src [] =>
          modify (set_cells
                    (Py.init cs ++ [code_cell src [new_code_cell]]))
      | code_cell _ (_ :: _) => warn MultipleOutputBlocks
      | markdown_cell _ => warn (OutputAfterNonCodeCell "markdown")
      | stream_output _ => raise AttributeError
      end
  | _ =>
      modify (fun s => set_cells (cells (output s) ++ [new_code_cell]) s)
  end ;;
  modify (set_in_code_block false).

End Methods.

End JupyterCodeTranslator.

(** * [JupyterTranslator] (translate_all.py) *)

Module JupyterTranslator.

(** The attributes that the subclass adds; [base] holds those of
    [JupyterCodeTranslator]. *)
Record self : Type := mkSelf {
  base : JupyterCodeTranslator.self;
  markdown_lines : list string;
  indents : list nat;
  section_level : Z;
  bullets : list string;
  list_item_starts : list nat;
  in_topic : bool;
  reference_text_start : nat;
  in_reference : bool;
  list_level : Z;
  in_citation : bool
}.

(** Settings, fixed by the constructor. *)
Definition sep_lines : string := "  " +:+ Py.nl.
Definition sep_paras : string := Py.nl +:+ Py.nl.
Definition indent_char : string := " ".
Definition indent : string := Py.repeat indent_char 4.
Definition default_ext : string := ".ipynb".

Definition set_base (v : JupyterCodeTranslator.self) (s : self) : self :=
  mkSelf v (markdown_lines s) (indents s) (section_level s) (bullets s)
    (list_item_starts s) (in_topic s) (reference_text_start s)
    (in_reference s) (list_level s) (in_citation s).

Definition set_markdown_lines (v : list string) (s : self) : self :=
  mkSelf (base s) v (indents s) (section_level s) (bullets s)
    (list_item_starts s) (in_topic s) (reference_text_start s)
    (in_reference s) (list_level s) (in_citation s).

Definition set_indents (v : list nat) (s : self) : self :=
  mkSelf (base s) (markdown_lines s) v (section_level s) (bullets s)
    (list_item_starts s) (in_topic s) (reference_text_start s)
    (in_reference s) (list_level s) (in_citation s).

Definition set_section_level (v : Z) (s : self) : self :=
  mkSelf (base s) (markdown_lines s) (indents s) v (bullets s)
    (list_item_starts s) (in_topic s) (reference_text_start s)
    (in_reference s) (list_level s) (in_citation s).

Definition set_bullets (v : list string) (s : self) : self :=
  mkSelf (base s) (markdown_lines s) (indents s) (section_level s) v
    (list_item_starts s) (in_topic s) (reference_text_start s)
    (in_reference s) (list_level s) (in_citation s).

Definition set_list_item_starts (v : list nat) (s : self) : self :=
  mkSelf (base s) (markdown_lines s) (indents s) (section_level s)
    (bullets s) v (in_topic s) (reference_text_start s) (in_reference s)
    (list_level s) (in_citation s).

Definition set_in_topic (v : bool) (s : self) : self :=
  mkSelf (base s) (markdown_lines s) (indents s) (section_level s)
    (bullets s) (list_item_starts s) v (reference_text_start s)
    (in_reference s) (list_level s) (in_citation s).

Definition set_reference_text_start (v : nat) (s : self) : self :=
  mkSelf (base s) (markdown_lines s) (indents s) (section_level s)
    (bullets s) (list_item_starts s) (in_topic s) v (in_reference s)
    (list_level s) (in_citation s).

Definition set_in_reference (v : bool) (s : self) : self :=
  mkSelf (base s) (markdown_lines s) (indents s) (section_level s)
    (bullets s) (list_item_starts s) (in_topic s) (reference_text_start s)
    v (list_level s) (in_citation s).

Definition set_list_level (v : Z) (s : self) : self :=
  mkSelf (base s) (markdown_lines s) (indents s) (section_level s)
    (bullets s) (list_item_starts s) (in_topic s) (reference_text_start s)
    (in_reference s) v (in_citation s).

Definition set_in_citation (v : bool) (s : self) : self :=
  mkSelf (base s) (markdown_lines s) (indents s) (section_level s)
    (bullets s) (list_item_starts s) (in_topic s) (reference_text_start s)
    (in_reference s) (list_level s) v.

(** [self.output["cells"]] *)
Definition cells_of (s : self) : list NotebookNode :=
  cells (JupyterCodeTranslator.output (base s)).

(** [super().__init__(builder, document)], then the attributes of the
    subclass. *)
Definition init (b : JupyterCodeTranslator.Builder) : Exception + self :=
  match JupyterCodeTranslator.init b with
  | inl e => inl e
  | inr c =>
      inr {|
        base :=
          JupyterCodeTranslator.set_code_lines []
            (JupyterCodeTranslator.set_in_code_block false c);
        markdown_lines := [];
        indents := [];
        section_level := 0;
        bullets := [];
        list_item_starts := [];
        in_topic := false;
        reference_text_start := 0;
        in_reference := false;
        list_level := 0;
        in_citation := false
      |}
  end.

(** A method of the superclass called on [self]. *)
Definition super {A} (m : M JupyterCodeTranslator.self A) : M self A :=
  fun s => match m (base s) with
           | Return a c => Return a (set_base c s)
           | Raised e => Raised e
           end.

(** [self.markdown_lines.append(text)] *)
Definition append (text : string) : M self unit :=
  modify (fun s => set_markdown_lines (markdown_lines s ++ [text]) s).

(** ** General methods *)

(** Split a markdown cell here: append [markdown_lines] to the notebook
    and reset [markdown_lines]. *)
Definition add_markdown_cell : M self unit :=
  lines <- gets markdown_lines ;;
  let line_text := Py.join EmptyString lines in
  let formatted_line_text :=
    JupyterCodeTranslator.strip_blank_lines_in_end_of_block line_text in
  if 0 <? String.length (Py.strip formatted_line_text)
  then
    let new_md_cell := new_markdown_cell formatted_line_text in
    super (modify (fun c =>
      JupyterCodeTranslator.set_cells
        (cells (JupyterCodeTranslator.output c) ++ [new_md_cell]) c)) ;;
    modify (set_markdown_lines [])
  else ret tt.

(** [re.search(SPLIT_URI_ID_REGEX, uri).groups()]. The pattern is: a
    group of any number of characters other than a hash, an optional
    hash, a group of any number of characters. It matches at the start
    of [uri]: the first group is the longest prefix without a hash, the
    hash after it is skipped, and the second group runs to the end of
    the line, since the dot matches no line feed. *)
Definition split_uri_id (uri : string) : string * string :=
  let '(g1, rest) := Py.span_not "#"%char uri in
  let rest :=
    match rest with
    | String _ r => r
    | EmptyString => EmptyString
    end in
  (g1, fst (Py.span_not Py.LF rest)).

Definition add_extension_to_inline_link (uri ext : string) : string :=
  if negb (Py.contains "."%char uri)
  then let '(uri, id_) := split_uri_id uri in uri +:+ ext +:+ "#" +:+ id_
  else uri.

Section Methods.
Context `{Utils}.

(** The method that [self.add_markdown_cell] is bound to when a visit
    or depart method calls it: Python looks it up on [self] at the
    call. *)
Variable self_add_markdown_cell : M self unit.

(** ** Sections *)

Definition visit_document : M self unit :=
  super JupyterCodeTranslator.visit_document.

Definition depart_document : M self unit :=
  self_add_markdown_cell ;;
  super JupyterCodeTranslator.depart_document.

Definition visit_topic : M self unit := modify (set_in_topic true).

Definition depart_topic : M self unit := modify (set_in_topic false).

Definition visit_section : M self unit :=
  modify (fun s => set_section_level (section_level s + 1)%Z s).

Definition depart_section : M self unit :=
  modify (fun s => set_section_level (section_level s - 1)%Z s).

(** ** Inline elements *)

Definition visit_Text (text : string) : M self unit :=
  b <- gets (fun s => JupyterCodeTranslator.in_code_block (base s)) ;;
  if b
  then super (modify (fun c =>
         JupyterCodeTranslator.set_code_lines
           (JupyterCodeTranslator.code_lines c ++ [text]) c))
  else append text.

Definition visit_image (uri : string) : M self unit :=
  append ("![" +:+ uri +:+ "](" +:+ uri +:+ ")").

(** inline math *)
Definition visit_math (latex : string) : M self unit :=
  let math_text := Py.strip latex in
  append ("$ " +:+ math_text +:+ " $").

(** directive math; both branches on [list_level] format the same
    text. *)
Definition visit_displaymath (latex : string) (ids : list string)
    (number : string) : M self unit :=
  let math_text := Py.strip latex in
  let formatted_text :=
    "$$" +:+ Py.nl +:+ math_text +:+ Py.nl +:+ "$$" +:+ sep_paras in
  let formatted_text :=
    "<table width=100%><tr style='background-color: #FFFFFF !important;'><td width=75%>"
    +:+ formatted_text
    +:+ "</td><td width=25% style='text-align:center !important;'>" in
  append formatted_text ;;
  (* Add the line number reference. *)
  match ids with
  | _ :: _ => append ("(" +:+ number +:+ ")")
  | [] => ret tt
  end ;;
  append "</td></tr></table>".

(** ** Markdown cells *)

Definition depart_paragraph : M self unit :=
  lvl <- gets list_level ;;
  if (0 <? lvl)%Z then append sep_lines else append sep_paras.

Definition visit_title : M self unit :=
  self_add_markdown_cell ;;
  t <- gets in_topic ;;
  lvl <- gets section_level ;;
  if t then append (Py.repeat "#" (lvl + 1) +:+ " ")
  else append (Py.repeat "#" lvl +:+ " ").

Definition depart_title : M self unit := append sep_paras.

Definition visit_emphasis : M self unit := append "*".
Definition depart_emphasis : M self unit := append "*".

Definition visit_strong : M self unit := append "**".
Definition depart_strong : M self unit := append "**".

Definition depart_figure : M self unit := append sep_lines.

(** anchor link *)
Definition visit_reference : M self unit :=
  modify (set_in_reference true) ;;
  append "[" ;;
  modify (fun s => set_reference_text_start (length (markdown_lines s)) s).

Definition depart_reference (refuri : option string)
    (internal : option bool) (refid : option string) : M self unit :=
  t <- gets in_topic ;;
  (if t then
     (* Jupyter Notebook uses the target text as its id *)
     lines <- gets markdown_lines ;;
     start <- gets reference_text_start ;;
     let uri_text := Py.strip (Py.join EmptyString (drop start lines)) in
     let uri_text :=
       Py.re_sub_space JupyterCodeTranslator.URI_SPACE_REPLACE_TO uri_text in
     append ("](#" +:+ uri_text +:+ ")")
   else
     refuri <-
       match refuri with
       | Some refuri =>
           (* add default extension(.ipynb) *)
           match internal with
           | Some true =>
               ret (add_extension_to_inline_link refuri default_ext)
           | _ => ret refuri
           end
       | None =>
           match refid with
           | Some refid => ret ("#" +:+ refid)
           | None =>
               super (JupyterCodeTranslator.error InvalidReference) ;;
               ret EmptyString
           end
       end ;;
     append ("](" +:+ refuri +:+ ")")) ;;
  modify (set_in_reference false).

(** target: make anchor *)
Definition visit_target (refid : option string) : M self unit :=
  match refid with
  | Some refid => append (Py.nl +:+ "<a id='" +:+ refid +:+ "'></a>" +:+ Py.nl)
  | None => ret tt
  end.

(** ** List items *)

Definition visit_bullet_list : M self unit :=
  modify (fun s => set_list_level (list_level s + 1)%Z s) ;;
  (* markdown does not have option changing bullet chars *)
  modify (fun s => set_bullets (bullets s ++ ["-"]) s) ;;
  bs <- gets bullets ;;
  b <- orRaise IndexError (last bs) ;;
  modify (fun s => set_indents (indents s ++ [String.length b + 1]) s).

(** [self.bullets.pop()] and [self.indents.pop()] *)
Definition pop_bullets : M self unit :=
  bs <- gets bullets ;;
  _ <- orRaise IndexError (last bs) ;;
  modify (set_bullets (Py.init bs)).

Definition pop_indents : M self unit :=
  ws <- gets indents ;;
  _ <- orRaise IndexError (last ws) ;;
  modify (set_indents (Py.init ws)).

Definition depart_bullet_list : M self unit :=
  modify (fun s => set_list_level (list_level s - 1)%Z s) ;;
  lvl <- gets list_level ;;
  (if (lvl =? 0)%Z then
     append sep_paras ;;
     t <- gets in_topic ;;
     if t then self_add_markdown_cell else ret tt
   else ret tt) ;;
  pop_bullets ;;
  pop_indents.

Definition visit_enumerated_list : M self unit :=
  modify (fun s => set_list_level (list_level s + 1)%Z s) ;;
  (* markdown does not have option changing bullet chars *)
  modify (fun s => set_bullets (bullets s ++ ["1."]) s) ;;
  bs <- gets bullets ;;
  b <- orRaise IndexError (last bs) ;;
  modify (fun s => set_indents (indents s ++ [String.length b + 1]) s).

Definition depart_enumerated_list : M self unit :=
  modify (fun s => set_list_level (list_level s - 1)%Z s) ;;
  lvl <- gets list_level ;;
  (if (lvl =? 0)%Z then append sep_paras else ret tt) ;;
  pop_bullets ;;
  pop_indents.

Definition visit_list_item : M self unit :=
  bs <- gets bullets ;;
  b <- orRaise IndexError (last bs) ;;
  let head := b +:+ " " in
  append head ;;
  modify (fun s =>
    set_list_item_starts
      (list_item_starts s ++ [length (markdown_lines s)]) s).

(** The loop [for i in range(list_item_start, len(self.markdown_lines))]
    of [depart_list_item], assigning to [markdown_lines[i]]. *)
Definition reindent (indent : string) (list_item_start : nat)
    (lines : list string) : list string :=
  foldl (fun lines i =>
           alter (Py.replace Py.LF (Py.nl +:+ indent)) i lines)
        lines (seq list_item_start (length lines - list_item_start)).

Definition depart_list_item : M self unit :=
  starts <- gets list_item_starts ;;
  list_item_start <- orRaise IndexError (last starts) ;;
  modify (set_list_item_starts (Py.init starts)) ;;
  ws <- gets indents ;;
  w <- orRaise IndexError (last ws) ;;
  let indent := Py.repeat indent_char (Z.of_nat w) in
  (* remove last breakline *)
  lines <- gets markdown_lines ;;
  fragment <- orRaise IndexError (last lines) ;;
  c <- orRaise IndexError (Py.last_char fragment) ;;
  let br_removed_flag := Ascii.eqb c Py.LF in
  (if br_removed_flag
   then modify (set_markdown_lines
                  (alter Py.drop_last (length lines - 1) lines))
   else ret tt) ;;
  modify (fun s =>
    set_markdown_lines
      (reindent indent list_item_start (markdown_lines s)) s) ;;
  (* add breakline *)
  if br_removed_flag then append Py.nl else ret tt.

(** ** Definition lists *)

Definition visit_definition_list : M self unit :=
  append (Py.nl +:+ "<dl style='margin: 20px 0;'>" +:+ Py.nl).

Definition depart_definition_list : M self unit :=
  append (Py.nl +:+ "</dl>" +:+ sep_paras).

Definition visit_term : M self unit := append "<dt>".

Definition depart_term : M self unit := append ("</dt>" +:+ Py.nl).

Definition visit_definition : M self unit := append ("<dd>" +:+ Py.nl).

Definition depart_definition : M self unit := append ("</dd>" +:+ Py.nl).

(** ** Field lists *)

Definition visit_field_list : M self unit := visit_definition_list.
Definition depart_field_list : M self unit := depart_definition_list.
Definition visit_field_name : M self unit := visit_term.
Definition depart_field_name : M self unit := depart_term.
Definition visit_field_body : M self unit := visit_definition.
Definition depart_field_body : M self unit := depart_definition.

(** ** Citations *)

(** The loop over [ids] and its [else] clause, which always runs:
    every id followed by a space, then the last character dropped. *)
Definition citation_id_text (ids : list string) : string :=
  Py.drop_last (foldl (fun id_text id_ => id_text +:+ id_ +:+ " ")
                      EmptyString ids).

Definition visit_citation (ids : option (list string)) : M self unit :=
  modify (set_in_citation true) ;;
  match ids with
  | Some ids =>
      append ("<a id='" +:+ citation_id_text ids +:+ "'></a>" +:+ Py.nl)
  | None => ret tt
  end.

Definition depart_citation : M self unit := modify (set_in_citation false).

Definition visit_label : M self unit :=
  c <- gets in_citation ;;
  if c then append "\[" else ret tt.

Definition depart_label : M self unit :=
  c <- gets in_citation ;;
  if c then append "\] " else ret tt.

(** ** Code blocks: the rest is implemented in the superclass *)

Definition visit_literal_block (classes : list string)
    (language : option string) : M self unit :=
  super (JupyterCodeTranslator.visit_literal_block classes language) ;;
  b <- gets (fun s => JupyterCodeTranslator.in_code_block (base s)) ;;
  if b then self_add_markdown_cell else ret tt.

(** ** Dispatch *)

(** [visitor.dispatch_visit(node)]: the method [visit_<class>] of the
    class, that of the superclass, or [default_visit]. *)
Definition dispatch_visit (node : Node) : M self unit :=
  match node with
  | document => visit_document
  | topic => visit_topic
  | section => visit_section
  | Text text => visit_Text text
  | image uri => visit_image uri
  | math latex => visit_math latex
  | displaymath latex ids number => visit_displaymath latex ids number
  | title => visit_title
  | emphasis => visit_emphasis
  | strong => visit_strong
  | reference _ _ _ => visit_reference
  | target refid => visit_target refid
  | bullet_list => visit_bullet_list
  | enumerated_list => visit_enumerated_list
  | list_item => visit_list_item
  | definition_list => visit_definition_list
  | term => visit_term
  | definition => visit_definition
  | field_list => visit_field_list
  | field_name => visit_field_name
  | field_body => visit_field_body
  | citation ids => visit_citation ids
  | label => visit_label
  | literal_block classes language => visit_literal_block classes language
  | highlightlang lang =>
      super (JupyterCodeTranslator.visit_highlightlang lang)
  | raw | paragraph | figure | other _ => ret tt
  end.

(** [visitor.dispatch_departure(node)] *)
Definition dispatch_departure (node : Node) : M self unit :=
  match node with
  | document => depart_document
  | topic => depart_topic
  | section => depart_section
  | paragraph => depart_paragraph
  | title => depart_title
  | emphasis => depart_emphasis
  | strong => depart_strong
  | figure => depart_figure
  | reference refuri internal refid =>
      depart_reference refuri internal refid
  | bullet_list => depart_bullet_list
  | enumerated_list => depart_enumerated_list
  | list_item => depart_list_item
  | definition_list => depart_definition_list
  | term => depart_term
  | definition => depart_definition
  | field_list => depart_field_list
  | field_name => depart_field_name
  | field_body => depart_field_body
  | citation _ => depart_citation
  | label => depart_label
  | literal_block _ _ => super JupyterCodeTranslator.depart_literal_block
  | Text _ | image _ | math _ | displaymath _ _ _ | raw | target _
  | highlightlang _ | other _ => ret tt
  end.

Definition dispatch (e : Event) : M self unit :=
  match e with
  | Visit node => dispatch_visit node
  | Depart node => dispatch_departure node
  end.

(** The traversal: the events in order, stopping at the first
    exception. *)
Fixpoint run (events : list Event) : M self unit :=
  match events with
  | [] => ret tt
  | e :: events => dispatch e ;; run events
  end.

End Methods.

(** The translator as it runs: [self.add_markdown_cell] is the method
    of the class. *)
Definition handle `{Utils} : Event -> M self unit :=
  dispatch add_markdown_cell.

Definition translate_events `{Utils} : list Event -> M self unit :=
  run add_markdown_cell.

(** [document.walkabout(visitor)] *)
Definition translate_tree `{Utils} (t : Doctree) : M self unit :=
  translate_events (walkabout t).

End JupyterTranslator.

(** * Notions used to state the properties *)

Import JupyterTranslator.

(** The children of a literal block: one [Text] node per fragment. *)
Definition text_nodes (texts : list string) : list Doctree :=
  (fun t => Tree (Text t) []) <$> texts.

(** The language that [visit_literal_block] resolves for a block. *)
Definition resolved_language `{Utils} (language : option string) (s : self)
    : option string :=
  translate (match language with
             | Some l => Some (Py.strip l)
             | None => JupyterCodeTranslator.lang (base s)
             end).

(** The block is in a language other than the kernel language of the
    document. *)
Definition foreign `{Utils} (language : option string) (s : self) : bool :=
  bool_decide (resolved_language language s
               <> translate (JupyterCodeTranslator.lang (base s))).

(** Running a method with [self.add_markdown_cell] replaced by a probe
    that raises [x] shows whether the method reaches a flush: it does when
    the probe's exception comes out, whichever exception that is. *)
Definition invokes_flush `{Utils} (e : Event) (s : self) : Prop :=
  forall x : Exception, dispatch (raise x) e s = Raised x.

(** The method does not depend on what a flush does. *)
Definition never_flushes `{Utils} (e : Event) (s : self) : Prop :=
  forall f g : M self unit, dispatch f e s = dispatch g e s.

(** The method flushes once, between two computations of its own. *)
Definition flushes_once `{Utils} (e : Event) (s : self) : Prop :=
  exists before after : M self unit,
    forall f : M self unit, dispatch f e s = (before ;; f ;; after) s.

(** The events at which the translator flushes the markdown buffer. *)
Definition flush_point (e : Event) (s : self) : bool :=
  match e with
  | Visit title => true
  | Visit (literal_block _ _) => true
  | Depart document => true
  | Depart bullet_list => bool_decide (list_level s = 1%Z) && in_topic s
  | _ => false
  end.

(** The four flush points as the specification lists them: before a
    title, after a foreign-language block is demoted, at document end, and
    when the outermost list inside a topic closes, bulleted or
    enumerated. *)
Definition spec_flush_point `{Utils} (e : Event) (s : self) : bool :=
  match e with
  | Visit title => true
  | Visit (literal_block _ language) => foreign language s
  | Depart document => true
  | Depart bullet_list | Depart enumerated_list =>
      bool_decide (list_level s = 1%Z) && in_topic s
  | _ => false
  end.

(** Slugification as the specification words it: the text stripped, and
    every run of white space collapsed to a single hyphen. *)
Fixpoint collapse_runs (in_run : bool) (s : string) : string :=
  match s with
  | EmptyString => EmptyString
  | String c r =>
      if Py.isspace c
      then if in_run then collapse_runs true r
           else String "-" (collapse_runs true r)
      else String c (collapse_runs false r)
  end.

Definition spec_slug (label : string) : string :=
  collapse_runs false (Py.strip label).

(** The language that [depart_document] settles on. *)
Definition final_lang (c : JupyterCodeTranslator.self) : option string :=
  if JupyterCodeTranslator.truthy (JupyterCodeTranslator.lang c)
  then JupyterCodeTranslator.lang c
  else Some (JupyterCodeTranslator.default_lang c).

(** The metadata cell that the constructor appends. *)
Definition metadata_cells (b : JupyterCodeTranslator.Builder)
    : list NotebookNode :=
  if JupyterCodeTranslator.config_jupyter_write_metadata b
  then [new_markdown_cell (JupyterCodeTranslator.meta_text b)] else [].

Definition is_markdown (c : NotebookNode) : Prop :=
  cell_type c = Some "markdown".

(** ** A concrete configuration, for the examples *)

Module Sample.

(** A selector in the style of the project: the class [output] marks
    captured output, [no-execute] and [skip-test] mark display-only
    code. *)
Definition select (classes : list string) : JupyterOutputCellGenerators :=
  foldl (fun res item =>
           if String.eqb item "no-execute" then MARKDOWN
           else if String.eqb item "skip-test" then MARKDOWN
           else if String.eqb item "output" then CODE_OUTPUT
           else res)
        CODE classes.

Definition fenced (nodelang : option string) (text : string) : string :=
  "```" +:+ default EmptyString nodelang +:+ Py.nl +:+ text +:+ Py.nl
  +:+ "```".

Definition utils : Utils := {|
  translate := id;
  GetGeneratorFromClasses := select;
  markdown_rendering := fenced
|}.

Definition python3_kernel : gmap string (gmap string Kernelspec) :=
  {[ "python3" := {[ "kernelspec" := {[ "name" := "python3" ]} ]} ]}.

Definition header1 : NotebookNode := new_code_cell "%autosave 0".
Definition header2 : NotebookNode := new_code_cell "import this".

(** No welcome block, no metadata cell. *)
Definition plain : JupyterCodeTranslator.Builder :=
  JupyterCodeTranslator.mkBuilder
    ["_templates"] (Some python3_kernel)
    (Some {[ "python3" := [header1; header2] ]}) false true
    "welcome.md" (fun _ => None) "2018-01-01 00:00:00" "index.rst".

(** Metadata cell, no welcome block. *)
Definition with_metadata : JupyterCodeTranslator.Builder :=
  JupyterCodeTranslator.mkBuilder
    ["_templates"] (Some python3_kernel)
    (Some {[ "python3" := [header1; header2] ]}) true true
    "welcome.md" (fun _ => None) "2018-01-01 00:00:00" "index.rst".

(** Metadata cell and a welcome block. *)
Definition with_welcome : JupyterCodeTranslator.Builder :=
  JupyterCodeTranslator.mkBuilder
    ["_templates"] (Some python3_kernel)
    (Some {[ "python3" := [header1; header2] ]}) true true
    "welcome.md"
    (fun path => if String.eqb path "_templates/welcome.md"
                 then Some "Welcome" else None)
    "2018-01-01 00:00:00" "index.rst".

(** A translator in the middle of a document. *)
Definition state (lines : list string) : self :=
  {| base := {|
       JupyterCodeTranslator.lang := Some "python3";
       JupyterCodeTranslator.nodelang := None;
       JupyterCodeTranslator.reporter := [];
       JupyterCodeTranslator.source_file_name := "index.rst";
       JupyterCodeTranslator.default_lang := "python3";
       JupyterCodeTranslator.output := new_notebook;
       JupyterCodeTranslator.jupyter_kernels := Some python3_kernel;
       JupyterCodeTranslator.jupyter_headers := Some ∅;
       JupyterCodeTranslator.jupyter_write_metadata := false;
       JupyterCodeTranslator.in_code_block := false;
       JupyterCodeTranslator.output_cell_type := None;
       JupyterCodeTranslator.code_lines := []
     |};
     markdown_lines := lines;
     indents := [];
     section_level := 1;
     bullets := [];
     list_item_starts := [];
     in_topic := false;
     reference_text_start := 0;
     in_reference := false;
     list_level := 0;
     in_citation := false |}.

(** The same inside a topic, in the outermost list. *)
Definition topic_state (lines : list string) (bullet : string) : self :=
  set_in_topic true
    (set_list_level 1
       (set_bullets [bullet]
          (set_indents [String.length bullet + 1] (state lines)))).

(** A small document: a section with a title, prose, a code block with
    two output blocks after it, a block in another language, a numbered
    list and a link to another page. *)
Definition para (text : string) : Doctree :=
  Tree paragraph [Tree (Text text) []].

Definition doc : Doctree :=
  Tree document
    [Tree section
       [Tree title [Tree (Text "Intro") []];
        para "Some prose";
        Tree (literal_block [] None) [Tree (Text ("x = 1" +:+ Py.nl)) []];
        Tree (literal_block ["output"] None) [Tree (Text "1") []];
        Tree (literal_block ["output"] None) [Tree (Text "again") []];
        Tree (literal_block [] (Some "bash")) [Tree (Text "echo hi") []];
        Tree enumerated_list
          [Tree list_item [para "one"]; Tree list_item [para "two"]];
        Tree paragraph
          [Tree (Text "See ") [];
           Tree (reference (Some "page#sec") (Some true) None)
             [Tree (Text "there") []]]]].

End Sample.

(** The text that a flush makes of the markdown buffer, and the test
    [len(formatted_line_text.strip()) > 0] of [add_markdown_cell]. *)
Definition pending_text (s : self) : string :=
  JupyterCodeTranslator.strip_blank_lines_in_end_of_block
    (Py.join EmptyString (markdown_lines s)).

Definition flushable (s : self) : bool :=
  0 <? String.length (Py.strip (pending_text s)).

(** The translator after a flush that emitted a cell. *)
Definition flushed (s : self) : self :=
  set_markdown_lines []
    (set_base
       (JupyterCodeTranslator.set_cells
          (cells_of s ++ [new_markdown_cell (pending_text s)]) (base s)) s).

(** The text of the code buffer as [depart_literal_block] hands it to the
    strategy. *)
Definition code_text (c : JupyterCodeTranslator.self) : string :=
  JupyterCodeTranslator.strip_blank_lines_in_end_of_block
    (Py.join EmptyString (JupyterCodeTranslator.code_lines c)).

(** What [depart_list_item] does to the fragments of the item: the line
    feed that ends the last fragment is set aside, the indent goes in
    after every line feed that is left, and the line feed set aside comes
    back as a fragment of its own. *)
Definition reindented (indent : string) (own : list string) (frag : string)
    : list string :=
  match Py.last_char frag with
  | Some c =>
      if Ascii.eqb c Py.LF
      then (Py.replace Py.LF (Py.nl +:+ indent)
              <$> (own ++ [Py.drop_last frag])) ++ [Py.nl]
      else Py.replace Py.LF (Py.nl +:+ indent) <$> (own ++ [frag])
  | None => own ++ [frag]
  end.

(** ** The two-level list of the examples *)

Module Nested.

(** The list
    [- A] with, inside that item, [- B] continued on a second line
    by [C]. *)
Definition tree : Doctree :=
  Tree bullet_list
    [Tree list_item
       [Tree paragraph [Tree (Text "A") []];
        Tree bullet_list
          [Tree list_item
             [Tree paragraph
                [Tree (Text ("B" +:+ Py.nl +:+ "C")) []]]]]].

(** The translator when the inner item is about to close. *)
Definition at_inner_close : self :=
  set_list_item_starts [1; 4]
    (set_indents [2; 2]
       (set_bullets ["-"; "-"]
          (set_list_level 2
             (Sample.state
                ["- "; "A"; sep_lines; "- "; "B" +:+ Py.nl +:+ "C";
                 sep_lines])))).

(** The events up to there: all but the last four. *)
Definition before_inner_close : list Event :=
  take (length (walkabout tree) - 4) (walkabout tree).

End Nested.

(** A stream of cells, none of them a bare output, whose code cells carry
    one output at most. *)
Definition stream_ok (cs : list NotebookNode) : Prop :=
  Forall (fun c => match c with
                   | markdown_cell _ => True
                   | code_cell _ outputs => length outputs <= 1
                   | stream_output _ => False
                   end) cs.

(** The literal blocks of a document: classes, language and text
    fragments of each. *)
Definition literal_blocks
    (blocks : list (list string * option string * list string))
    : list Doctree :=
  (fun '(classes, language, texts) =>
     Tree (literal_block classes language) (text_nodes texts)) <$> blocks.

(** The translator and the stream of [b] agree on the metadata cell: the
    setting is that of [b], and when it is on, the cell is the first of the
    stream. *)
Definition metadata_first (b : JupyterCodeTranslator.Builder) (s : self)
    : Prop :=
  JupyterCodeTranslator.jupyter_write_metadata (base s)
    = JupyterCodeTranslator.config_jupyter_write_metadata b /\
  (JupyterCodeTranslator.config_jupyter_write_metadata b = true ->
   exists rest,
     cells_of s
     = new_markdown_cell (JupyterCodeTranslator.meta_text b) :: rest).

(** A translator inside a topic, after the label of a reference. *)
Definition in_reference_label (label : list string) : self :=
  set_reference_text_start 1
    (set_in_reference true (Sample.topic_state ("[" :: label) "-")).



(** A string of white space only: what [len(s.strip()) == 0] tests. *)
Fixpoint all_space (s : string) : bool :=
  match s with
  | EmptyString => true
  | String c r => Py.isspace c && all_space r
  end.

(** A line that [strip_blank_lines_in_end_of_block] drops at the end. *)
Definition blank (line : string) : Prop :=
  String.length (Py.strip line) = 0.

(** ** Notions for the further properties *)

(** A list of lines that is empty or ends in a line that is not blank. *)
Definition settled (lines : list string) : Prop :=
  match last lines with
  | Some l => ~ blank l
  | None => True
  end.

(** What stays of a cell once it is in the stream: its type and its
    body. *)
Definition skeleton (c : NotebookNode) : option string * string :=
  (cell_type c, source c).

(** A cell as the translators make it: a markdown cell, or a code cell
    without output. *)
Definition fresh_cell (c : NotebookNode) : Prop :=
  match c with
  | markdown_cell _ => True
  | code_cell _ outputs => outputs = []
  | stream_output _ => False
  end.

(** How one method may change the cell stream: it appends fresh cells; or
    it attaches an output to the last cell, a code cell without one; or, at
    the end of the document, it appends what was pending and inserts the
    header cells of a language. *)
Definition stream_step (e : Event) (s s' : self) : Prop :=
  (exists new, cells_of s' = cells_of s ++ new /\ Forall fresh_cell new) \/
  (exists cs src text,
     cells_of s = cs ++ [code_cell src []] /\
     cells_of s' = cs ++ [code_cell src [stream_output text]]) \/
  (e = Depart document /\
   exists pending headers l hs,
     Forall fresh_cell pending /\
     JupyterCodeTranslator.jupyter_headers (base s) = Some headers /\
     headers !! l = Some hs /\
     cells_of s' =
       JupyterCodeTranslator.insert_headers
         (JupyterCodeTranslator.jupyter_write_metadata (base s)) hs
         (cells_of s ++ pending)).

(** The configuration that the constructor took from the builder. *)
Definition configuration (s : self) :=
  (JupyterCodeTranslator.jupyter_kernels (base s),
   JupyterCodeTranslator.jupyter_headers (base s),
   JupyterCodeTranslator.jupyter_write_metadata (base s),
   JupyterCodeTranslator.default_lang (base s),
   JupyterCodeTranslator.source_file_name (base s)).

(** The language of the document is the default one or a key of the
    kernel table. *)
Definition lang_settled (s : self) : Prop :=
  exists l,
    JupyterCodeTranslator.lang (base s) = Some l /\
    (l = JupyterCodeTranslator.default_lang (base s) \/
     exists kernels,
       JupyterCodeTranslator.jupyter_kernels (base s) = Some kernels /\
       is_Some (kernels !! l)).

(** How one method may change the language of the document. *)
Definition lang_step (s s' : self) : Prop :=
  JupyterCodeTranslator.lang (base s') = JupyterCodeTranslator.lang (base s) \/
  lang_settled s'.

(** The header cells configured for every language are cells in order. *)
Definition headers_ok (s : self) : Prop :=
  forall headers l hs,
    JupyterCodeTranslator.jupyter_headers (base s) = Some headers ->
    headers !! l = Some hs -> stream_ok hs.

(** The kernel table, when there is one, has an entry for the default
    language. *)
Definition default_kernel (s : self) : Prop :=
  forall kernels,
    JupyterCodeTranslator.jupyter_kernels (base s) = Some kernels ->
    is_Some (kernels !! JupyterCodeTranslator.default_lang (base s)).

(** The translator that a run ends in; the one it started from when it
    raised. *)
Definition final_state `{Utils} (events : list Event) (s : self) : self :=
  match translate_events events s with
  | Return _ s' => s'
  | Raised _ => s
  end.

(** The nesting that the translator keeps track of: the depth in sections
    and in lists, and the marks, indents and starts of the open lists and
    items. *)
Definition nesting (s : self)
    : Z * Z * list string * list nat * list nat :=
  (section_level s, list_level s, bullets s, indents s, list_item_starts s).

(** The nodes whose methods only append to the markdown buffer, or do
    nothing. *)
Definition prose_node (n : Node) : bool :=
  match n with
  | document | title | bullet_list | enumerated_list | list_item
  | literal_block _ _ | highlightlang _ => false
  | _ => true
  end.

(** A subtree of such nodes only. *)
Fixpoint prose (t : Doctree) : bool :=
  match t with
  | Tree n children => prose_node n && forallb prose children
  end.

(** The target that [depart_reference] writes outside a topic: the URI,
    with the default extension when the link is internal; else the id
    after a hash; else nothing. *)
Definition link_target (refuri : option string) (internal : option bool)
    (refid : option string) : string :=
  match refuri with
  | Some refuri =>
      match internal with
      | Some true => add_extension_to_inline_link refuri default_ext
      | _ => refuri
      end
  | None =>
      match refid with
      | Some refid => "#" +:+ refid
      | None => EmptyString
      end
  end.

(** The run reaches no call of [self.add_markdown_cell]: it returns all
    the same when a flush that raises is put in its place, whatever that
    flush raises. *)
Definition runs_without_flush `{Utils} (events : list Event) (s s' : self)
    : Prop :=
  forall x : Exception, run (raise x) events s = Return tt s'.

(** The characters of a text that are not white space, in their order. *)
Fixpoint visible (s : string) : string :=
  match s with
  | EmptyString => EmptyString
  | String c r => if Py.isspace c then visible r else String c (visible r)
  end.








(** * Facts about the Python built-ins *)

Section PyFacts.
Import Py.

Lemma str_app_cons c s t : String c s +:+ t = String c (s +:+ t).
Proof. reflexivity. Qed.

Lemma str_app_nil_l s : EmptyString +:+ s = s.
Proof. reflexivity. Qed.

Lemma str_app_nil_r s : s +:+ EmptyString = s.
Proof. induction s as [|c s IH]; [done|]. by rewrite str_app_cons, IH. Qed.

Lemma str_app_assoc s t u : (s +:+ t) +:+ u = s +:+ (t +:+ u).
Proof.
  induction s as [|c s IH]; [done|]. by rewrite !str_app_cons, IH.
Qed.

Lemma all_space_app s t : all_space (s +:+ t) = all_space s && all_space t.
Proof.
  induction s as [|c s IH]; [done|].
  rewrite str_app_cons. simpl. rewrite IH. by destruct (isspace c).
Qed.

(** ** [strip] *)

Lemma lstrip_all_space s : all_space s = true -> lstrip s = EmptyString.
Proof.
  induction s as [|c s IH]; simpl; [done|].
  destruct (isspace c); [auto | done].
Qed.

Lemma lstrip_head s :
  all_space s = false ->
  exists c r, lstrip s = String c r /\ isspace c = false.
Proof.
  induction s as [|c s IH]; simpl; [done|].
  destruct (isspace c) eqn:Hc; simpl; [auto | eauto].
Qed.

Lemma rstrip_head c r : isspace c = false -> rstrip (String c r) <> EmptyString.
Proof. intros Hc. simpl. destruct (rstrip r); [by rewrite Hc | done]. Qed.

Lemma strip_all_space s : all_space s = true -> strip s = EmptyString.
Proof. intros Hs. unfold strip. by rewrite lstrip_all_space. Qed.

Lemma blank_all_space s : blank s <-> all_space s = true.
Proof.
  unfold blank. split.
  - intros Hlen. destruct (all_space s) eqn:Hs; [done|].
    destruct (lstrip_head s Hs) as (c & r & Hl & Hc).
    unfold strip in Hlen. rewrite Hl in Hlen.
    pose proof (rstrip_head c r Hc) as Hne.
    destruct (rstrip (String c r)); [done | simpl in Hlen; lia].
  - intros Hs. by rewrite strip_all_space.
Qed.

Lemma blank_dec s : (String.length (strip s) =? 0) = all_space s.
Proof.
  destruct (all_space s) eqn:Hs.
  - apply Nat.eqb_eq. by apply blank_all_space.
  - apply Nat.eqb_neq. intros Hb. apply blank_all_space in Hb. congruence.
Qed.

(** ** [split] and [join] *)

Lemma split_cons sep s : exists h t, split sep s = h :: t.
Proof.
  induction s as [|c s (h & t & IH)]; simpl; [eauto|].
  destruct (Ascii.eqb c sep); [eauto|]. rewrite IH. eauto.
Qed.

Lemma join_cons sep x l :
  join sep (x :: l) =
  x +:+ match l with [] => EmptyString | _ :: _ => sep +:+ join sep l end.
Proof. destruct l; simpl; [by rewrite str_app_nil_r | done]. Qed.

(** Joining the lines of a text with line feeds gives the text back. *)
Lemma join_split s : join nl (split LF s) = s.
Proof.
  induction s as [|c s IH]; [done|]. simpl split.
  destruct (split_cons LF s) as (h & t & Hs). rewrite Hs in IH |- *.
  destruct (Ascii.eqb_spec c LF) as [->|Hne].
  - rewrite join_cons, IH. reflexivity.
  - rewrite join_cons in IH |- *. by rewrite str_app_cons, IH.
Qed.

Lemma all_space_join l :
  Forall blank l -> all_space (join nl l) = true.
Proof.
  induction 1 as [|x l Hx Hl IH]; [done|].
  rewrite join_cons, all_space_app.
  apply blank_all_space in Hx. rewrite Hx. simpl.
  destruct l; [done|]. by rewrite all_space_app, IH.
Qed.

(** Blank lines at the end of a list of lines add only white space to
    the joined text. *)
Lemma join_app_blank keep dropped :
  Forall blank dropped ->
  exists tail,
    join nl (keep ++ dropped) = join nl keep +:+ tail /\
    all_space tail = true.
Proof.
  intros Hd. induction keep as [|x keep (tail & IH & Htail)].
  - exists (join nl dropped). split; [done|]. by apply all_space_join.
  - change ((x :: keep) ++ dropped) with (x :: (keep ++ dropped)).
    rewrite !join_cons. destruct keep as [|y keep].
    + destruct dropped as [|d dropped]; simpl app.
      * exists EmptyString. by rewrite !str_app_nil_r.
      * exists (nl +:+ join nl (d :: dropped)). rewrite str_app_nil_r.
        split; [done|]. by rewrite all_space_app, all_space_join.
    + exists tail. simpl app in *. rewrite IH.
      by rewrite !str_app_assoc.
Qed.

End PyFacts.

Section MoreFacts.
Import Py.

(** ** [replace], [contains], [re_sub_space], [span_not] *)

Lemma replace_app old new s t :
  replace old new (s +:+ t) = replace old new s +:+ replace old new t.
Proof.
  induction s as [|c s IH]; [done|].
  rewrite str_app_cons. simpl. rewrite IH.
  destruct (Ascii.eqb c old).
  - by rewrite str_app_assoc.
  - by rewrite str_app_cons.
Qed.

(** Every line feed is followed by the indent after the replacement. *)
Lemma replace_line_feed ind s t :
  replace LF (nl +:+ ind) (s +:+ nl +:+ t) =
  replace LF (nl +:+ ind) s +:+ nl +:+ ind +:+ replace LF (nl +:+ ind) t.
Proof.
  rewrite !replace_app.
  assert (replace LF (nl +:+ ind) nl = nl +:+ ind) as ->.
  { unfold nl at 2. simpl. apply str_app_nil_r. }
  by rewrite str_app_assoc.
Qed.

Lemma contains_app c s t :
  contains c (s +:+ t) = contains c s || contains c t.
Proof.
  induction s as [|d s IH]; [done|].
  rewrite str_app_cons. simpl. rewrite IH. by destruct (Ascii.eqb d c).
Qed.

Lemma span_not_absent c s :
  contains c s = false -> span_not c s = (s, EmptyString).
Proof.
  induction s as [|d s IH]; simpl; [done|].
  destruct (Ascii.eqb d c); simpl; [done|]. intros Hs. by rewrite IH.
Qed.

(** [re.sub] of the class [\s] works on each character by itself. *)
Lemma re_sub_space_chars s :
  list_ascii_of_string (re_sub_space "-" s) =
  (fun c => if isspace c then "-"%char else c) <$> list_ascii_of_string s.
Proof.
  induction s as [|c s IH]; [done|]. simpl.
  destruct (isspace c); [rewrite str_app_cons, str_app_nil_l|];
    simpl; by rewrite IH.
Qed.

(** ** The in-place loops on lists *)

Lemma foldl_alter_lookup {A} (f : A -> A) n : forall a (l : list A) i,
  foldl (fun l j => alter f j l) l (seq a n) !! i =
  if bool_decide (a <= i < a + n) then f <$> l !! i else l !! i.
Proof.
  induction n as [|n IH]; intros a l i; simpl.
  - rewrite bool_decide_eq_false_2; [done | lia].
  - rewrite IH. destruct (decide (a = i)) as [->|Hne].
    + rewrite list_lookup_alter_eq.
      rewrite (bool_decide_eq_false_2 (S i <= i < _)); [|lia].
      rewrite bool_decide_eq_true_2; [done | lia].
    + rewrite list_lookup_alter_ne; [|done].
      apply (f_equal (fun b : bool => if b then f <$> l !! i else l !! i)).
      apply bool_decide_ext. lia.
Qed.

(** The loop [for i in range(a, len(l)): l[i] = f(l[i])] maps [f] over
    the elements from index [a] on and leaves the others. *)
Lemma foldl_alter_from {A} (f : A -> A) a (l : list A) :
  foldl (fun l j => alter f j l) l (seq a (length l - a)) =
  take a l ++ (f <$> drop a l).
Proof.
  apply list_eq. intros i. rewrite foldl_alter_lookup.
  destruct (decide (i < a)) as [Hlt|Hge].
  - rewrite bool_decide_eq_false_2; [|lia].
    destruct (decide (i < length l)) as [Hi|Hi].
    + rewrite lookup_app_l; [|rewrite length_take; lia].
      by rewrite lookup_take_lt.
    + rewrite !lookup_ge_None_2; [done | |lia].
      rewrite length_app, length_take, length_fmap, length_drop. lia.
  - rewrite lookup_app_r; [|rewrite length_take; lia].
    rewrite list_lookup_fmap, lookup_drop, length_take.
    destruct (decide (i < length l)) as [Hi|Hi].
    + rewrite bool_decide_eq_true_2; [|lia]. do 2 f_equal. lia.
    + rewrite !lookup_ge_None_2; [by case_bool_decide | lia | lia].
Qed.

(** Assigning to the last element. *)
Lemma alter_last {A} (f : A -> A) (l : list A) x :
  alter f (length (l ++ [x]) - 1) (l ++ [x]) = l ++ [f x].
Proof.
  rewrite length_app. simpl.
  replace (length l + 1 - 1) with (length l + 0) by lia.
  by rewrite alter_app_r.
Qed.

Lemma init_snoc {A} (l : list A) x : init (l ++ [x]) = l.
Proof. apply removelast_last. Qed.

(** Inserting the elements of [hs], last first, at a position inside the
    list puts them there in their own order. *)
Lemma foldl_insert_reverse {A} k (hs cs : list A) :
  k <= length cs ->
  foldl (fun cs h => insert k h cs) cs (reverse hs) =
  take k cs ++ hs ++ drop k cs.
Proof.
  intros Hk. induction hs as [|h hs IH]; simpl.
  - by rewrite take_drop.
  - rewrite reverse_cons, foldl_snoc, IH. unfold insert.
    rewrite take_app_le, take_take by (rewrite length_take; lia).
    rewrite drop_app_length' by (rewrite length_take; lia).
    by rewrite Nat.min_id.
Qed.

End MoreFacts.

(** * Facts about the general methods *)

Section StripFacts.
Import Py JupyterCodeTranslator.

Lemma strip_loop_prefix n : forall lines,
  exists dropped,
    lines = strip_loop n lines ++ dropped /\ Forall blank dropped.
Proof.
  induction n as [|n IH]; intros lines; simpl.
  - exists []. by rewrite app_nil_r.
  - destruct (last lines) as [l|] eqn:Hlast.
    + apply last_Some in Hlast as [lines' ->].
      destruct (String.length (strip l) =? 0) eqn:Hl.
      * rewrite init_snoc. destruct (IH lines') as (dropped & Hd & Hb).
        exists (dropped ++ [l]). split.
        -- rewrite Hd at 1. by rewrite <- app_assoc.
        -- apply Forall_app. split; [done|].
           apply Forall_singleton. by apply Nat.eqb_eq.
      * exists []. by rewrite app_nil_r.
    + exists []. by rewrite app_nil_r.
Qed.

(** [strip_blank_lines_in_end_of_block] returns a prefix of its
    argument, and what it cuts off is white space. *)
Lemma strip_blank_lines_prefix line_text :
  exists tail,
    line_text = strip_blank_lines_in_end_of_block line_text +:+ tail /\
    all_space tail = true.
Proof.
  unfold strip_blank_lines_in_end_of_block.
  destruct (strip_loop_prefix (length (split LF line_text))
              (split LF line_text)) as (dropped & Hd & Hb).
  destruct (join_app_blank
              (strip_loop (length (split LF line_text)) (split LF line_text))
              dropped Hb) as (tail & Hj & Ht).
  exists tail. split; [|done].
  rewrite <- Hj, <- Hd. by rewrite join_split.
Qed.

End StripFacts.

(** * Symbolic execution of the methods *)

Create HintDb methods.

#[global] Hint Unfold
  handle translate_events translate_tree dispatch dispatch_visit
  dispatch_departure visit_document depart_document visit_topic depart_topic
  visit_section depart_section visit_Text visit_image visit_math
  visit_displaymath depart_paragraph visit_title depart_title visit_emphasis
  depart_emphasis visit_strong depart_strong depart_figure visit_reference
  depart_reference visit_target visit_bullet_list depart_bullet_list
  visit_enumerated_list depart_enumerated_list visit_list_item
  depart_list_item visit_definition_list depart_definition_list visit_term
  depart_term visit_definition depart_definition visit_field_list
  depart_field_list visit_field_name depart_field_name visit_field_body
  depart_field_body visit_citation depart_citation visit_label depart_label
  visit_literal_block pop_bullets pop_indents append super
  JupyterCodeTranslator.visit_document JupyterCodeTranslator.depart_document
  JupyterCodeTranslator.visit_highlightlang JupyterCodeTranslator.visit_Text
  JupyterCodeTranslator.visit_literal_block
  JupyterCodeTranslator.depart_literal_block JupyterCodeTranslator.warn
  JupyterCodeTranslator.error
  bind ret raise gets modify orRaise : methods.

Ltac exec := repeat (progress (autounfold with methods; simpl)).
Ltac exec_in H :=
  repeat (progress (autounfold with methods in H; simpl in H)).

(** The sample document, translated from the constructor on. *)
Example translate_sample_document :
  exists s0 s,
    JupyterTranslator.init Sample.with_metadata = inr s0 /\
    translate_tree (H := Sample.utils) Sample.doc s0 = Return tt s /\
    cells_of s =
      [markdown_cell
         ("Notebook created: 2018-01-01 00:00:00  " +:+ Py.nl +:+
          "Generated from: index.rst  ");
       Sample.header1; Sample.header2;
       markdown_cell ("# Intro" +:+ Py.nl +:+ Py.nl +:+ "Some prose");
       code_cell "x = 1" [stream_output "1"];
       markdown_cell ("```bash" +:+ Py.nl +:+ "echo hi" +:+ Py.nl +:+ "```");
       markdown_cell
         ("1. one  " +:+ Py.nl +:+ "1. two  " +:+ Py.nl +:+ Py.nl +:+ Py.nl
          +:+ "See [there](page.ipynb#sec)")] /\
    markdown_lines s = [] /\
    JupyterCodeTranslator.reporter (base s) = [Warning MultipleOutputBlocks].
Proof.
  eexists _, _. split; [reflexivity|].
  split; [vm_compute; reflexivity|]. repeat split.
Qed.

(** * The extension of inline links *)

(** The groups of the regular expression on some URIs: only the first
    hash separates, and the second group ends at a line feed. *)
Example split_uri_id_examples :
  split_uri_id "page#sec" = ("page", "sec") /\
  split_uri_id "page" = ("page", EmptyString) /\
  split_uri_id "a##b" = ("a", "#b") /\
  split_uri_id ("a" +:+ Py.nl +:+ "b#c" +:+ Py.nl +:+ "d")
    = ("a" +:+ Py.nl +:+ "b", "c").
Proof. repeat split. Qed.

(** C8. [add_extension_to_inline_link] splices the extension in before
    the fragment: ["page#sec"] becomes ["page.ipynb#sec"]. A URI that
    holds a dot comes back unchanged, ["page.html#sec"] for one; so with
    an extension that holds a dot, as [".ipynb"] does, applying the
    function to its own result changes nothing. *)
Theorem add_extension_idempotent :
  add_extension_to_inline_link "page#sec" ".ipynb" = "page.ipynb#sec" /\
  add_extension_to_inline_link "page.html#sec" ".ipynb" = "page.html#sec" /\
  (forall uri ext,
     Py.contains "."%char uri = true ->
     add_extension_to_inline_link uri ext = uri) /\
  (forall uri ext,
     Py.contains "."%char ext = true ->
     add_extension_to_inline_link (add_extension_to_inline_link uri ext) ext
     = add_extension_to_inline_link uri ext) /\
  (forall uri,
     add_extension_to_inline_link
       (add_extension_to_inline_link uri default_ext) default_ext
     = add_extension_to_inline_link uri default_ext).
Proof.
  assert (Hdot : forall uri ext, Py.contains "."%char uri = true ->
                 add_extension_to_inline_link uri ext = uri).
  { intros uri ext Hc. unfold add_extension_to_inline_link. by rewrite Hc. }
  assert (Hidem : forall uri ext, Py.contains "."%char ext = true ->
            add_extension_to_inline_link
              (add_extension_to_inline_link uri ext) ext
            = add_extension_to_inline_link uri ext).
  { intros uri ext Hext. apply Hdot.
    unfold add_extension_to_inline_link.
    destruct (Py.contains "."%char uri) eqn:Hc; simpl; [done|].
    destruct (split_uri_id uri) as [u id_].
    rewrite !contains_app, Hext. by rewrite orb_true_r. }
  split; [reflexivity|]. split; [reflexivity|].
  split; [exact Hdot|]. split; [exact Hidem|].
  intros uri. by apply Hidem.
Qed.

Lemma add_extension_idempotent_witness :
  add_extension_to_inline_link "a.b#c" ".ipynb" = "a.b#c" /\
  add_extension_to_inline_link
    (add_extension_to_inline_link "page#sec" ".ipynb") ".ipynb"
  = add_extension_to_inline_link "page#sec" ".ipynb".
Proof.
  destruct add_extension_idempotent as (_ & _ & Hdot & Hidem & _).
  split; [apply Hdot | apply Hidem]; reflexivity.
Defined.

(** C9. For a URI with neither a dot nor a hash the result is the URI,
    the extension and a hash at the end, although the input had no
    fragment: ["page"] becomes ["page.ipynb#"]. *)
Theorem add_extension_trailing_hash uri ext :
  Py.contains "."%char uri = false ->
  Py.contains "#"%char uri = false ->
  add_extension_to_inline_link uri ext = uri +:+ ext +:+ "#".
Proof.
  intros Hdot Hhash. unfold add_extension_to_inline_link, split_uri_id.
  rewrite Hdot, (span_not_absent _ _ Hhash). simpl.
  by rewrite str_app_nil_r.
Qed.

Lemma add_extension_trailing_hash_witness :
  add_extension_to_inline_link "page" ".ipynb" = "page.ipynb#".
Proof. apply (add_extension_trailing_hash "page" ".ipynb"); reflexivity. Defined.

(** * List items *)

Lemma reindent_from indent m (lines : list string) :
  reindent indent m lines =
  take m lines ++ (Py.replace Py.LF (Py.nl +:+ indent) <$> drop m lines).
Proof. apply foldl_alter_from. Qed.

(** [depart_list_item] on an item that has content after its mark. *)
Lemma depart_list_item_content s starts ws w before own frag c :
  list_item_starts s = starts ++ [length before] ->
  indents s = ws ++ [w] ->
  markdown_lines s = before ++ own ++ [frag] ->
  Py.last_char frag = Some c ->
  depart_list_item s =
  Return tt
    (set_markdown_lines
       (before ++ reindented (Py.repeat indent_char (Z.of_nat w)) own frag)
       (set_list_item_starts starts s)).
Proof.
  intros Hstarts Hws Hlines Hc. unfold reindented. rewrite Hc.
  assert (Hlast : last (markdown_lines s) = Some frag).
  { rewrite Hlines, app_assoc. apply last_snoc. }
  exec. rewrite Hstarts, last_snoc. simpl. rewrite Hws, last_snoc. simpl.
  rewrite Hlast. simpl. rewrite Hc. simpl. rewrite init_snoc.
  destruct (Ascii.eqb c Py.LF);
    unfold set_markdown_lines, set_list_item_starts; simpl; do 2 f_equal.
  - rewrite Hlines, app_assoc, alter_last, reindent_from.
    rewrite <- (app_assoc before own), take_app_length, drop_app_length.
    by rewrite <- app_assoc.
  - rewrite reindent_from, Hlines.
    by rewrite take_app_length, drop_app_length.
Qed.


Example nested_reaches_inner_close :
  translate_events (H := Sample.utils) Nested.before_inner_close
    (Sample.state [])
  = Return tt Nested.at_inner_close
  /\ drop (length (walkabout Nested.tree) - 4) (walkabout Nested.tree)
     = [Depart list_item; Depart bullet_list; Depart list_item;
        Depart bullet_list].
Proof. split; reflexivity. Qed.

(** C4, as stated, fails: when the inner item of the two-level list
    closes, its content does not become [B], line feed, four spaces, [C]. *)
Lemma inner_item_indent_is_not_four :
  exists s',
    depart_list_item Nested.at_inner_close = Return tt s' /\
    markdown_lines s' !! 4 <> Some ("B" +:+ Py.nl +:+ "    C").
Proof. eexists. split; [vm_compute; reflexivity | by vm_compute]. Qed.

(** C10. When a list item closes and the fragment appended last is the
    empty string, reading its last character raises [IndexError], and the
    traversal stops there; an item whose last child is an empty text node
    is such a case. *)
Theorem depart_list_item_empty_fragment `{Utils} :
  (forall s, last (markdown_lines s) = Some EmptyString ->
     depart_list_item s = Raised IndexError) /\
  (forall f s events,
     last (markdown_lines s) = Some EmptyString ->
     run f (Depart list_item :: events) s = Raised IndexError) /\
  (forall f s bullet events,
     JupyterCodeTranslator.in_code_block (base s) = false ->
     last (bullets s) = Some bullet ->
     run f ([Visit list_item; Visit (Text EmptyString);
             Depart (Text EmptyString); Depart list_item] ++ events) s
     = Raised IndexError).
Proof.
  assert (Hraise : forall s, last (markdown_lines s) = Some EmptyString ->
                   depart_list_item s = Raised IndexError).
  { intros s Hlast. exec.
    destruct (last (list_item_starts s)); simpl; [|done].
    destruct (last (indents s)); simpl; [|done].
    by rewrite Hlast. }
  split; [exact Hraise|]. split.
  - intros f s events Hlast. simpl. unfold bind, dispatch, dispatch_departure.
    by rewrite Hraise.
  - intros f s bullet events Hcode Hbullet. exec.
    rewrite Hbullet. simpl. rewrite Hcode. simpl.
    rewrite !last_snoc. simpl.
    destruct (last (indents s)); simpl; [|done].
    by rewrite last_snoc.
Qed.

Lemma depart_list_item_empty_fragment_witness :
  translate_events (H := Sample.utils)
    [Visit list_item; Visit (Text EmptyString); Depart (Text EmptyString);
     Depart list_item; Depart bullet_list]
    (Sample.topic_state [] "-")
  = Raised IndexError.
Proof.
  destruct (depart_list_item_empty_fragment (H := Sample.utils))
    as (_ & _ & Hitem).
  apply (Hitem add_markdown_cell (Sample.topic_state [] "-") "-"
           [Depart bullet_list]); reflexivity.
Defined.

(** * Flushing the buffers *)

Section FlushFacts.
Import JupyterCodeTranslator.

Lemma add_markdown_cell_flushable s :
  flushable s = true -> add_markdown_cell s = Return tt (flushed s).
Proof.
  intros Hf. unfold add_markdown_cell, bind, gets. simpl.
  unfold flushable, pending_text in Hf. by rewrite Hf.
Qed.

Lemma add_markdown_cell_blank s :
  flushable s = false -> add_markdown_cell s = Return tt s.
Proof.
  intros Hf. unfold add_markdown_cell, bind, gets. simpl.
  unfold flushable, pending_text in Hf. by rewrite Hf.
Qed.

(** A flush returns, and changes only the cells and the buffer. *)
Lemma add_markdown_cell_shape s :
  exists pending lines,
    add_markdown_cell s =
      Return tt
        (set_markdown_lines lines
           (set_base (set_cells (cells_of s ++ pending) (base s)) s)) /\
    Forall is_markdown pending.
Proof.
  destruct (flushable s) eqn:Hf.
  - exists [new_markdown_cell (pending_text s)], [].
    split; [by apply add_markdown_cell_flushable|].
    by apply Forall_singleton.
  - exists [], (markdown_lines s). split; [|done].
    rewrite add_markdown_cell_blank by done. f_equal.
    destruct s as [[? ? ? ? ? [? ?] ? ? ? ? ? ?] ? ? ? ? ? ? ? ? ? ?].
    unfold set_markdown_lines, set_base, set_cells, set_output, cells_of.
    simpl. by rewrite app_nil_r.
Qed.

(** Stripping the blank lines at the end keeps a text that is not all
    white space so. *)
Lemma all_space_strip_blank_lines t :
  all_space (strip_blank_lines_in_end_of_block t) = all_space t.
Proof.
  destruct (strip_blank_lines_prefix t) as (tail & Ht & Hs).
  rewrite Ht at 2. by rewrite all_space_app, Hs, andb_true_r.
Qed.

(** A flush emits a cell exactly when the buffer holds a character
    that is not white space. *)
Lemma flushable_spec s :
  flushable s = negb (all_space (Py.join EmptyString (markdown_lines s))).
Proof.
  unfold flushable, pending_text.
  rewrite <- all_space_strip_blank_lines, <- blank_dec.
  by destruct (String.length _).
Qed.

End FlushFacts.

(** Replace a flush in [Hrun] by its result. *)
Ltac flush_step Hrun :=
  match type of Hrun with
  | context [add_markdown_cell ?st] =>
      let pending := fresh "pending" in
      let lines := fresh "lines" in
      let Hflush := fresh "Hflush" in
      destruct (add_markdown_cell_shape st) as (pending & lines & Hflush & _);
      rewrite Hflush in Hrun; clear Hflush; exec_in Hrun
  end.

(** * References inside a topic *)

(** [depart_reference] inside a topic. *)
Lemma depart_reference_in_topic s refuri internal refid :
  in_topic s = true ->
  depart_reference refuri internal refid s =
  Return tt
    (set_in_reference false
       (set_markdown_lines
          (markdown_lines s ++
           ["](#" +:+
            Py.re_sub_space "-"
              (Py.strip
                 (Py.join EmptyString
                    (drop (reference_text_start s) (markdown_lines s))))
            +:+ ")"]) s)).
Proof. intros Ht. exec. by rewrite Ht. Qed.

(** C5, as stated, fails: a label with two spaces between its words gets
    two hyphens, not the single hyphen of a collapsed run. *)
Lemma slug_keeps_each_space :
  exists s',
    depart_reference None None None (in_reference_label ["Foo  Bar"])
      = Return tt s' /\
    last (markdown_lines s') = Some "](#Foo--Bar)" /\
    last (markdown_lines s') <> Some ("](#" +:+ spec_slug "Foo  Bar" +:+ ")").
Proof. eexists. split; [vm_compute; reflexivity|]. by vm_compute. Qed.

(** C5, amended. For every reference node closed inside a topic the link
    target that is emitted is a hash followed by the label text appended
    since the start mark of the reference, stripped, with every white-space
    character replaced by one hyphen (a run of them gives as many hyphens)
    and every other character, its case too, kept; the label [Foo Bar]
    gives [[Foo Bar](#Foo-Bar)]. *)
Theorem topic_reference_target `{Utils} :
  (forall s refuri internal refid,
     in_topic s = true ->
     exists s',
       depart_reference refuri internal refid s = Return tt s' /\
       markdown_lines s' =
         markdown_lines s ++
         ["](#" +:+
          Py.re_sub_space "-"
            (Py.strip
               (Py.join EmptyString
                  (drop (reference_text_start s) (markdown_lines s))))
          +:+ ")"]) /\
  (forall label,
     list_ascii_of_string (Py.re_sub_space "-" label) =
     (fun c => if Py.isspace c then "-"%char else c)
       <$> list_ascii_of_string label) /\
  (forall s refuri internal refid,
     in_topic s = true ->
     JupyterCodeTranslator.in_code_block (base s) = false ->
     exists s',
       translate_tree
         (Tree (reference refuri internal refid) [Tree (Text "Foo Bar") []]) s
         = Return tt s' /\
       markdown_lines s' =
         markdown_lines s ++ ["["; "Foo Bar"; "](#Foo-Bar)"]).
Proof.
  split; [|split].
  - intros s refuri internal refid Ht. eexists.
    split; [by apply depart_reference_in_topic | done].
  - apply re_sub_space_chars.
  - intros s refuri internal refid Ht Hcode. eexists. split.
    + exec. rewrite Hcode. simpl. rewrite Ht. simpl. reflexivity.
    + simpl. rewrite drop_app_length. simpl.
      by rewrite <- !app_assoc.
Qed.

Lemma topic_reference_target_witness :
  exists s',
    translate_tree (H := Sample.utils)
      (Tree (reference None None None) [Tree (Text "Foo Bar") []])
      (Sample.topic_state ["- "] "-")
      = Return tt s' /\
    markdown_lines s' = ["- "; "["; "Foo Bar"; "](#Foo-Bar)"].
Proof.
  destruct (topic_reference_target (H := Sample.utils)) as (_ & _ & Hex).
  apply (Hex (Sample.topic_state ["- "] "-") None None None); reflexivity.
Defined.

(** * Code blocks *)

Section CodeBlocks.
Context `{Utils}.
Import JupyterCodeTranslator.

Lemma run_app f events1 events2 s :
  run f (events1 ++ events2) s =
  match run f events1 s with
  | Return _ s' => run f events2 s'
  | Raised e => Raised e
  end.
Proof.
  revert s. induction events1 as [|e events1 IH]; intros s; [done|].
  simpl. unfold bind. destruct (dispatch f e s); [apply IH | done].
Qed.

(** Inside a code block the text nodes go to the code buffer. *)
Lemma run_texts_in_code_block f texts : forall s,
  in_code_block (base s) = true ->
  run f (flat_map walkabout (text_nodes texts)) s =
  Return tt
    (set_base (set_code_lines (code_lines (base s) ++ texts) (base s)) s).
Proof.
  induction texts as [|t texts IH]; intros s Hcode.
  - simpl. unfold ret. f_equal.
    destruct s as [[? ? ? ? ? ? ? ? ? ? ? ?] ? ? ? ? ? ? ? ? ? ?].
    unfold set_base, set_code_lines. simpl. by rewrite app_nil_r.
  - simpl. exec. rewrite Hcode. simpl. rewrite IH by done. f_equal.
    unfold set_base, set_code_lines. simpl. by rewrite <- app_assoc.
Qed.

(** [visit_literal_block] of the superclass on a foreign block. *)
Lemma visit_foreign_block classes language s :
  foreign language s = true ->
  JupyterCodeTranslator.visit_literal_block classes language (base s) =
  Return tt
    (set_output_cell_type (Some MARKDOWN)
       (set_code_lines []
          (set_in_code_block true
             (set_nodelang (resolved_language language s) (base s))))).
Proof.
  intros Hf. unfold foreign, resolved_language in Hf. exec.
  rewrite Hf. simpl. unfold set_output_cell_type, set_code_lines,
    set_in_code_block, set_nodelang. simpl. reflexivity.
Qed.

(** [visit_literal_block] of the superclass on a block in the language
    of the document. *)
Lemma visit_native_block classes language s :
  foreign language s = false ->
  JupyterCodeTranslator.visit_literal_block classes language (base s) =
  Return tt
    (set_code_lines []
       (set_in_code_block true
          (set_nodelang (resolved_language language s)
             (set_output_cell_type
                (Some (GetGeneratorFromClasses classes)) (base s))))).
Proof.
  intros Hf. unfold foreign, resolved_language in Hf. exec.
  rewrite Hf. simpl. unfold set_output_cell_type, set_code_lines,
    set_in_code_block, set_nodelang. simpl. reflexivity.
Qed.

(** An output block that finds the cell stream empty. *)
Lemma depart_output_on_empty_stream c :
  output_cell_type c = Some CODE_OUTPUT ->
  cells (output c) = [] ->
  JupyterCodeTranslator.depart_literal_block c = Raised IndexError.
Proof. intros Ht Hcells. exec. rewrite Ht. simpl. by rewrite Hcells. Qed.

End CodeBlocks.

(** C1. A code block whose resolved language differs from the normalized
    kernel language of the document gets the strategy MARKDOWN, whatever
    its classes: the cell made of the block is a markdown cell, and no
    code cell is appended for it. A block declared in [bash] in a
    [python3] document is such a block when the normalizer keeps the two
    apart. *)
Theorem foreign_block_becomes_markdown `{Utils} s classes language texts :
  resolved_language language s
    <> translate (JupyterCodeTranslator.lang (base s)) ->
  exists s' pending,
    translate_tree (Tree (literal_block classes language) (text_nodes texts)) s
      = Return tt s' /\
    cells_of s' =
      cells_of s ++ pending ++
      [new_markdown_cell
         (markdown_rendering (resolved_language language s)
            (JupyterCodeTranslator.strip_blank_lines_in_end_of_block
               (Py.join EmptyString texts)))] /\
    Forall is_markdown pending /\
    JupyterCodeTranslator.output_cell_type (base s') = Some MARKDOWN /\
    (forall c, c ∈ drop (length (cells_of s)) (cells_of s') ->
               cell_type c <> Some "code").
Proof.
  intros Hforeign.
  assert (Hf : foreign language s = true).
  { unfold foreign. by apply bool_decide_eq_true_2. }
  pose proof (visit_foreign_block classes language s Hf) as Hvisit.
  set (c1 := JupyterCodeTranslator.set_output_cell_type _ _) in Hvisit.
  destruct (add_markdown_cell_shape (set_base c1 s))
    as (pending & lines & Hflush & Hpending).
  eexists _, pending.
  assert (Hcells : forall body,
    Forall is_markdown (pending ++ [new_markdown_cell body])).
  { intros body. apply Forall_app. split; [done|]. by apply Forall_singleton. }
  split; [|split; [|split; [|split]]].
  - unfold translate_tree, translate_events. simpl walkabout.
    simpl run. unfold bind at 1.
    unfold dispatch, dispatch_visit, JupyterTranslator.visit_literal_block.
    unfold bind at 1. unfold super at 1. rewrite Hvisit.
    unfold bind at 1, gets at 1.
    change (JupyterCodeTranslator.in_code_block (base (set_base c1 s)))
      with true.
    cbv iota. rewrite Hflush.
    rewrite run_app, run_texts_in_code_block by done.
    simpl. exec. reflexivity.
  - simpl. unfold cells_of. simpl. by rewrite <- app_assoc.
  - done.
  - reflexivity.
  - intros c Hc. unfold cells_of in Hc. simpl in Hc.
    rewrite <- app_assoc, drop_app_length in Hc.
    specialize (Hcells
      (markdown_rendering (resolved_language language s)
         (JupyterCodeTranslator.strip_blank_lines_in_end_of_block
            (Py.join EmptyString texts)))).
    rewrite Forall_forall in Hcells. rewrite (Hcells c Hc). done.
Qed.

Lemma foreign_block_becomes_markdown_witness :
  exists s' pending,
    translate_tree (H := Sample.utils)
      (Tree (literal_block [] (Some "bash")) (text_nodes ["echo hi"]))
      (Sample.state ["Some prose"; sep_paras])
      = Return tt s' /\
    cells_of s' =
      [] ++ pending ++
      [new_markdown_cell (Sample.fenced (Some "bash") "echo hi")] /\
    Forall is_markdown pending /\
    JupyterCodeTranslator.output_cell_type (base s') = Some MARKDOWN /\
    (forall c, c ∈ drop 0 (cells_of s') -> cell_type c <> Some "code").
Proof.
  apply (foreign_block_becomes_markdown (H := Sample.utils)
           (Sample.state ["Some prose"; sep_paras]) [] (Some "bash")
           ["echo hi"]).
  by vm_compute.
Defined.

(** * The flush points *)

Section FlushPoints.
Context `{Utils}.

Lemma never_flushes_elsewhere e s :
  flush_point e s = false -> never_flushes e s.
Proof.
  intros Hfp f g.
  destruct e as [n|n]; destruct n; try discriminate Hfp; try reflexivity.
  simpl in Hfp. exec.
  destruct (Z.eqb_spec (list_level s - 1) 0) as [Hlvl|]; [|done]. simpl.
  destruct (in_topic s); [|done].
  rewrite bool_decide_eq_true_2 in Hfp by lia. done.
Qed.

Lemma invokes_flush_at_flush_point e s :
  flush_point e s = true -> invokes_flush e s.
Proof.
  intros Hfp x.
  destruct e as [n|n]; destruct n; try discriminate Hfp; try reflexivity.
  - exec. by case_bool_decide.
  - simpl in Hfp. apply andb_true_iff in Hfp as [Hlvl Ht].
    apply bool_decide_eq_true_1 in Hlvl. exec.
    rewrite Hlvl. simpl. by rewrite Ht.
Qed.

Lemma flushes_once_at_flush_point e s :
  flush_point e s = true -> flushes_once e s.
Proof.
  intros Hfp.
  destruct e as [n|n]; destruct n; try discriminate Hfp.
  - (* a title *)
    exists (ret tt),
      (t <- gets in_topic ;;
       lvl <- gets section_level ;;
       if t then append (Py.repeat "#" (lvl + 1) +:+ " ")
       else append (Py.repeat "#" lvl +:+ " ")).
    reflexivity.
  - (* a literal block *)
    exists (super (JupyterCodeTranslator.visit_literal_block classes language)),
      (ret tt).
    intros f. exec.
    case_bool_decide; simpl;
      match goal with
      | |- context [f ?s0] => destruct (f s0) as [[] ?|]
      end; reflexivity.
  - (* the end of the document *)
    exists (ret tt), (super JupyterCodeTranslator.depart_document).
    reflexivity.
  - (* the outermost bulleted list of a topic *)
    simpl in Hfp. apply andb_true_iff in Hfp as [Hlvl Ht].
    apply bool_decide_eq_true_1 in Hlvl.
    exists (modify (fun s => set_list_level (list_level s - 1)%Z s) ;;
            append sep_paras),
      (pop_bullets ;; pop_indents).
    intros f. exec. rewrite Hlvl. simpl. by rewrite Ht.
Qed.

End FlushPoints.

(** C2, as stated, fails twice. Entering a code block in the language of
    the document is not among the four points, yet the pending prose is
    flushed there; and the outermost enumerated list of a topic is among
    them, yet closing it flushes nothing. *)
Lemma flush_points_differ_from_the_list :
  (spec_flush_point (H := Sample.utils)
     (Visit (literal_block [] None)) (Sample.state ["hello"]) = false /\
   invokes_flush (H := Sample.utils)
     (Visit (literal_block [] None)) (Sample.state ["hello"]) /\
   exists s',
     handle (H := Sample.utils)
       (Visit (literal_block [] None)) (Sample.state ["hello"])
       = Return tt s' /\
     cells_of s' = [new_markdown_cell "hello"] /\ markdown_lines s' = []) /\
  (spec_flush_point (H := Sample.utils)
     (Depart enumerated_list) (Sample.topic_state ["1. "; "x"] "1.") = true /\
   never_flushes (H := Sample.utils)
     (Depart enumerated_list) (Sample.topic_state ["1. "; "x"] "1.") /\
   exists s',
     handle (H := Sample.utils)
       (Depart enumerated_list) (Sample.topic_state ["1. "; "x"] "1.")
       = Return tt s' /\
     cells_of s' = [] /\ markdown_lines s' = ["1. "; "x"; sep_paras]).
Proof.
  split; (split; [vm_compute; reflexivity|]); split.
  - by apply invokes_flush_at_flush_point.
  - eexists. split; [vm_compute; reflexivity|]. split; reflexivity.
  - by apply never_flushes_elsewhere.
  - eexists. split; [vm_compute; reflexivity|]. split; reflexivity.
Qed.

(** C2, amended. The closing of the outermost enumerated list of a topic
    left aside, the markdown buffer is flushed at exactly these points,
    once at each: before a title is rendered; on entering a literal block,
    in the language of the document or a foreign one, right after the
    strategy of the block is chosen; at the end of the document; and when
    the outermost bulleted list of a topic has closed. No other method
    reaches a flush. A flush that finds more than white space appends the
    joined text, without the blank lines at its end, as a markdown cell
    and empties the buffer. *)
Theorem flush_points_of_the_translator `{Utils} e s :
  ~ (e = Depart enumerated_list /\ list_level s = 1%Z /\ in_topic s = true) ->
  (flush_point e s = true -> invokes_flush e s /\ flushes_once e s) /\
  (flush_point e s = false -> never_flushes e s /\ ~ invokes_flush e s) /\
  (flushable s = true -> add_markdown_cell s = Return tt (flushed s)).
Proof.
  intros _. split; [|split].
  - intros Hfp. split.
    + by apply invokes_flush_at_flush_point.
    + by apply flushes_once_at_flush_point.
  - intros Hfp. pose proof (never_flushes_elsewhere e s Hfp) as Hnever.
    split; [done|]. intros Hinv.
    pose proof (Hinv IndexError) as H1. pose proof (Hinv KeyError) as H2.
    rewrite (Hnever _ (raise KeyError)) in H1. congruence.
  - apply add_markdown_cell_flushable.
Qed.

Lemma flush_points_of_the_translator_witness :
  (invokes_flush (H := Sample.utils) (Visit title) (Sample.state ["hello"]) /\
   flushes_once (H := Sample.utils) (Visit title) (Sample.state ["hello"])) /\
  (never_flushes (H := Sample.utils) (Depart paragraph)
     (Sample.state ["hello"]) /\
   ~ invokes_flush (H := Sample.utils) (Depart paragraph)
       (Sample.state ["hello"])) /\
  add_markdown_cell (Sample.state ["hello"])
    = Return tt (flushed (Sample.state ["hello"])).
Proof.
  split; [|split].
  - apply (flush_points_of_the_translator (H := Sample.utils)
             (Visit title) (Sample.state ["hello"])).
    + by intros [? _].
    + reflexivity.
  - apply (flush_points_of_the_translator (H := Sample.utils)
             (Depart paragraph) (Sample.state ["hello"])).
    + by intros [? _].
    + reflexivity.
  - apply (flush_points_of_the_translator (H := Sample.utils)
             (Visit title) (Sample.state ["hello"])).
    + by intros [? _].
    + reflexivity.
Defined.

(** * Captured output *)

Section Outputs.
Context `{Utils}.
Import JupyterCodeTranslator.

(** An output block after a cell that is no code cell, or after a code
    cell that has an output, is dropped with a warning. *)
Lemma output_anomaly_is_reported c most_recent_cell :
  output_cell_type c = Some CODE_OUTPUT ->
  last (cells (output c)) = Some most_recent_cell ->
  (exists src, most_recent_cell = markdown_cell src) \/
  (exists src o outputs, most_recent_cell = code_cell src (o :: outputs)) ->
  exists c' m,
    JupyterCodeTranslator.depart_literal_block c = Return tt c' /\
    cells (output c') = cells (output c) /\
    reporter c' = reporter c ++ [Warning m].
Proof.
  intros Ht Hlast [[src ->]|(src & o & outputs & ->)];
    exec; rewrite Ht; simpl; rewrite Hlast; simpl; eauto.
Qed.

Lemma base_set_base c s : base (set_base c s) = c.
Proof. reflexivity. Qed.

(** [visit_literal_block] of the superclass always returns. *)
Lemma visit_literal_block_returns classes language c :
  exists c',
    JupyterCodeTranslator.visit_literal_block classes language c
      = Return tt c' /\
    in_code_block c' = true /\ code_lines c' = [] /\
    is_Some (output_cell_type c') /\ output c' = output c.
Proof.
  exec. case_bool_decide; simpl; eexists; (split; [reflexivity|]);
    simpl; eauto.
Qed.

(** [depart_literal_block] returns when the stream holds a cell, and keeps
    the stream in order. *)
Lemma depart_literal_block_returns c :
  is_Some (output_cell_type c) ->
  cells (output c) <> [] ->
  stream_ok (cells (output c)) ->
  exists c',
    JupyterCodeTranslator.depart_literal_block c = Return tt c' /\
    cells (output c') <> [] /\ stream_ok (cells (output c')).
Proof.
  intros [t Ht] Hne Hok. exec. rewrite Ht. simpl.
  assert (Hsnoc : forall x, cells (output c) ++ [x] <> []).
  { intros x Hx. by apply app_eq_nil in Hx as [_ ?]. }
  destruct t; simpl.
  - eexists. split; [reflexivity|]. simpl. split; [done|].
    apply Forall_app. split; [done|]. apply Forall_singleton. simpl. lia.
  - eexists. split; [reflexivity|]. simpl. split; [done|].
    apply Forall_app. split; [done|]. by apply Forall_singleton.
  - destruct (last (cells (output c))) as [cell|] eqn:Hlast; simpl.
    + apply last_Some in Hlast as [cs Hcs]. rewrite Hcs in Hok.
      apply Forall_app in Hok as [Hcs' Hcell].
      apply Forall_inv in Hcell.
      destruct cell as [src|src [|o outputs]|text]; simpl;
        try done; eexists; (split; [reflexivity|]); simpl.
      * split; [done|]. rewrite Hcs. apply Forall_app.
        split; [done|]. by apply Forall_singleton.
      * rewrite Hcs, init_snoc. split.
        -- intros Hx. by apply app_eq_nil in Hx as [_ ?].
        -- apply Forall_app. split; [done|].
           apply Forall_singleton. simpl. lia.
      * split; [done|]. rewrite Hcs. apply Forall_app.
        split; [done|]. by apply Forall_singleton.
    + by apply last_None in Hlast.
Qed.

(** One literal block, entered with a cell in the stream. *)
Lemma literal_block_after_a_cell s classes language texts :
  cells_of s <> [] -> stream_ok (cells_of s) ->
  exists s',
    translate_tree (Tree (literal_block classes language) (text_nodes texts)) s
      = Return tt s' /\
    cells_of s' <> [] /\ stream_ok (cells_of s').
Proof.
  intros Hne Hok.
  destruct (visit_literal_block_returns classes language (base s))
    as (c1 & Hvisit & Hcode & _ & Ht & Hout).
  destruct (add_markdown_cell_shape (set_base c1 s))
    as (pending & lines & Hflush & Hpending).
  set (c2 := set_cells (cells_of (set_base c1 s) ++ pending)
               (base (set_base c1 s))) in Hflush.
  set (s2 := set_markdown_lines lines (set_base c2 (set_base c1 s)))
    in Hflush.
  destruct (depart_literal_block_returns
              (set_code_lines (code_lines (base s2) ++ texts) (base s2)))
    as (c3 & Hdepart & Hne3 & Hok3).
  { done. }
  { simpl. unfold cells_of. simpl. rewrite Hout.
    intros Hx. by apply app_eq_nil in Hx as [? _]. }
  { simpl. unfold cells_of. simpl. rewrite Hout.
    apply Forall_app. split; [done|].
    eapply Forall_impl; [exact Hpending|].
    intros [| |] Hmd; try done. }
  eexists. split.
  - unfold translate_tree, translate_events. simpl walkabout.
    simpl run. unfold bind at 1.
    unfold JupyterTranslator.visit_literal_block.
    unfold bind at 1. unfold super at 1. rewrite Hvisit.
    unfold bind at 1, gets at 1.
    change (in_code_block (base (set_base c1 s))) with (in_code_block c1).
    rewrite Hcode. cbv iota. rewrite Hflush.
    rewrite run_app, run_texts_in_code_block by done.
    simpl run. unfold bind at 1. unfold super at 1.
    rewrite base_set_base.
    change (set_code_lines (code_lines (base s2) ++ texts) (base s2))
      with (set_code_lines (code_lines c1 ++ texts) c2) in Hdepart.
    rewrite Hdepart. reflexivity.
  - done.
Qed.

(** Every sequence of literal blocks that starts with a cell in the
    stream is translated without an exception, and leaves one output at
    most on each code cell. *)
Lemma literal_blocks_after_a_cell blocks : forall s,
  cells_of s <> [] -> stream_ok (cells_of s) ->
  exists s',
    translate_events (flat_map walkabout (literal_blocks blocks)) s
      = Return tt s' /\
    cells_of s' <> [] /\ stream_ok (cells_of s').
Proof.
  induction blocks as [|[[classes language] texts] blocks IH];
    intros s Hne Hok.
  - exists s. done.
  - destruct (literal_block_after_a_cell s classes language texts Hne Hok)
      as (s1 & Hrun1 & Hne1 & Hok1).
    destruct (IH s1 Hne1 Hok1) as (s' & Hrun & Hne' & Hok').
    exists s'. split; [|done].
    unfold translate_tree, translate_events in *.
    change (flat_map walkabout
              (literal_blocks ((classes, language, texts) :: blocks)))
      with (walkabout (Tree (literal_block classes language)
                         (text_nodes texts))
            ++ flat_map walkabout (literal_blocks blocks)).
    by rewrite run_app, Hrun1.
Qed.

(** The translator that the constructor gives when no welcome block is
    found. *)
Lemma init_without_welcome b s0 :
  JupyterTranslator.init b = inr s0 ->
  full_path_to_welcome b = None ->
  cells_of s0 = metadata_cells b /\
  markdown_lines s0 = [] /\
  in_code_block (base s0) = false /\
  jupyter_write_metadata (base s0) = config_jupyter_write_metadata b.
Proof.
  intros Hinit Hwelcome.
  unfold JupyterTranslator.init, JupyterCodeTranslator.init in Hinit.
  rewrite Hwelcome in Hinit.
  destruct (jupyter_python_autosave b);
    [|destruct (config_jupyter_headers b); [|done]];
    inversion Hinit; unfold cells_of, metadata_cells; simpl; done.
Qed.

End Outputs.

(** C3, where the code falls short of the claim. A document that starts
    with an output block, translated without welcome block and without
    metadata cell, reaches [depart_literal_block] with an empty cell
    stream; reading its last cell raises [IndexError], and the traversal
    ends there instead of going on with a warning. *)
Theorem output_block_at_document_start_raises `{Utils} b s0 classes texts :
  JupyterTranslator.init b = inr s0 ->
  JupyterCodeTranslator.full_path_to_welcome b = None ->
  JupyterCodeTranslator.config_jupyter_write_metadata b = false ->
  GetGeneratorFromClasses classes = CODE_OUTPUT ->
  translate_tree
    (Tree document [Tree (literal_block classes None) (text_nodes texts)]) s0
  = Raised IndexError.
Proof.
  intros Hinit Hwelcome Hmeta Hsel.
  destruct (init_without_welcome b s0 Hinit Hwelcome)
    as (Hcells & Hlines & _ & _).
  unfold metadata_cells in Hcells. rewrite Hmeta in Hcells.
  unfold translate_tree, translate_events. simpl walkabout.
  rewrite app_nil_r, <- app_assoc.
  set (s1 := set_base
               (JupyterCodeTranslator.set_lang
                  (Some (JupyterCodeTranslator.default_lang (base s0)))
                  (base s0)) s0).
  assert (Hnative : foreign None s1 = false).
  { unfold foreign, resolved_language.
    apply bool_decide_eq_false_2. intros Hne. by apply Hne. }
  pose proof (visit_native_block classes None s1 Hnative) as Hvisit.
  set (c2 := JupyterCodeTranslator.set_code_lines _ _) in Hvisit.
  assert (Hblank : add_markdown_cell (set_base c2 s1)
                   = Return tt (set_base c2 s1)).
  { apply add_markdown_cell_blank. rewrite flushable_spec.
    change (markdown_lines (set_base c2 s1)) with (markdown_lines s0).
    by rewrite Hlines. }
  simpl run. unfold bind at 1.
  change (visit_document s0) with (Return tt s1).
  cbv iota beta. unfold bind at 1.
  unfold JupyterTranslator.visit_literal_block.
  unfold bind at 1. unfold super at 1. rewrite Hvisit.
  unfold bind at 1, gets at 1.
  change (JupyterCodeTranslator.in_code_block (base (set_base c2 s1)))
    with true.
  cbv iota. rewrite Hblank.
  rewrite run_app, run_texts_in_code_block by done.
  simpl run. unfold bind at 1.
  unfold dispatch, dispatch_departure, super.
  rewrite depart_output_on_empty_stream; [done | by rewrite <- Hsel | done].
Qed.

Lemma output_block_at_document_start_raises_witness :
  exists s0,
    JupyterTranslator.init Sample.plain = inr s0 /\
    translate_tree (H := Sample.utils)
      (Tree document [Tree (literal_block ["output"] None) (text_nodes ["42"])])
      s0
    = Raised IndexError.
Proof.
  eexists. split; [reflexivity|].
  apply (output_block_at_document_start_raises (H := Sample.utils)
           Sample.plain _ ["output"] ["42"]); reflexivity.
Defined.

(** * Finalization: the metadata cell and the header cells *)

Section Finalize.
Context `{Utils}.
Import JupyterCodeTranslator.

Lemma insert_headers_after_first hs c cs :
  insert_headers true hs (c :: cs) = c :: hs ++ cs.
Proof.
  unfold insert_headers.
  rewrite (foldl_insert_reverse 1 hs (c :: cs)) by (simpl; lia).
  reflexivity.
Qed.

Lemma insert_headers_at_start hs cs :
  insert_headers false hs cs = hs ++ cs.
Proof.
  unfold insert_headers.
  rewrite (foldl_insert_reverse 0 hs cs) by lia.
  by rewrite take_0, drop_0.
Qed.

(** [depart_document] of the superclass, when header cells are
    configured for the language of the document. *)
Lemma depart_document_headers c headers hs :
  jupyter_headers c = Some headers ->
  final_lang c ≫= (fun l => headers !! l) = Some hs ->
  (forall kernels, jupyter_kernels c = Some kernels ->
     is_Some (final_lang c ≫= (fun l => kernels !! l))) ->
  exists c',
    JupyterCodeTranslator.depart_document c = Return tt c' /\
    cells (output c') =
      insert_headers (jupyter_write_metadata c) hs (cells (output c)).
Proof.
  intros Hheaders Hhs Hkernels. unfold final_lang in *. exec.
  destruct (truthy (lang c)) eqn:Hl; simpl; rewrite Hheaders; simpl in *;
    rewrite Hhs; simpl;
    (destruct (jupyter_kernels c) as [kernels|] eqn:Hk; simpl;
     [|eexists; split; reflexivity]);
    destruct (Hkernels kernels eq_refl) as [entry Hentry];
    rewrite Hentry; simpl;
    destruct (entry !! "kernelspec"); simpl; eexists; split; reflexivity.
Qed.

(** Attaching an output to the last cell, a code cell, leaves a first
    cell that is another cell where it is. *)
Lemma attach_keeps_head (cs : list NotebookNode) c rest x y :
  cs = c :: rest -> last cs = Some x -> x <> c ->
  exists rest', Py.init cs ++ [y] = c :: rest'.
Proof.
  intros Hcs Hlast Hne. apply last_Some in Hlast as [l Hl].
  rewrite Hl, init_snoc. rewrite Hl in Hcs.
  destruct l as [|c' l]; simpl in Hcs; inversion Hcs; subst.
  - done.
  - simpl. eauto.
Qed.

(** No method moves the metadata cell from the head of the stream. *)
Lemma handle_metadata_first b e s s' :
  handle e s = Return tt s' -> metadata_first b s -> metadata_first b s'.
Proof.
  intros Hrun [Hwm Hfirst]. unfold metadata_first, cells_of in *.
  destruct e as [n|n]; destruct n; exec_in Hrun;
    try flush_step Hrun;
    repeat case_match; simplify_eq; simpl in *; try done;
    try flush_step Hrun; simplify_eq;
    try (match goal with
         | Hf : add_markdown_cell ?st = _ |- _ =>
             destruct (add_markdown_cell_shape st)
               as (pending & lines & Hflush & _);
             rewrite Hflush in Hf; simplify_eq
         end);
    unfold cells_of in *; simpl in *;
    (split; [done|]); intros Hon; destruct (Hfirst Hon) as [rest Hrest];
    first
      [ by (rewrite ?Hwm, ?Hon, ?Hrest; simpl;
            rewrite ?insert_headers_after_first; eauto)
      | by (eapply attach_keeps_head; eauto) ].
Qed.

End Finalize.

Section FinalizeRun.
Context `{Utils}.
Import JupyterCodeTranslator.

Lemma run_metadata_first b events : forall s s',
  translate_events events s = Return tt s' ->
  metadata_first b s -> metadata_first b s'.
Proof.
  unfold translate_events.
  induction events as [|e events IH]; intros s s' Hrun Hinv.
  - simpl in Hrun. unfold ret in Hrun. by simplify_eq.
  - simpl in Hrun. unfold bind in Hrun.
    destruct (dispatch add_markdown_cell e s) as [[] s1|] eqn:He; [|done].
    eapply IH; [done|]. by eapply handle_metadata_first.
Qed.

Lemma init_metadata_first b s0 :
  JupyterTranslator.init b = inr s0 ->
  full_path_to_welcome b = None ->
  metadata_first b s0.
Proof.
  intros Hinit Hwelcome.
  destruct (init_without_welcome b s0 Hinit Hwelcome)
    as (Hcells & _ & _ & Hwm).
  split; [done|]. intros Hon. rewrite Hcells. unfold metadata_cells.
  rewrite Hon. eauto.
Qed.

End FinalizeRun.

(** C6, as stated, fails: with a welcome block configured and metadata
    writing enabled, the welcome cell is the first cell, the header cells
    come right after it, and the metadata cell comes last of the four. *)
Lemma welcome_cell_precedes_metadata :
  exists s0 s',
    JupyterTranslator.init Sample.with_welcome = inr s0 /\
    JupyterCodeTranslator.config_jupyter_write_metadata Sample.with_welcome
      = true /\
    translate_tree (H := Sample.utils) (Tree document []) s0 = Return tt s' /\
    cells_of s' =
      [new_markdown_cell "Welcome"; Sample.header1; Sample.header2;
       new_markdown_cell (JupyterCodeTranslator.meta_text Sample.with_welcome)]
    /\ head (cells_of s')
       <> Some (new_markdown_cell
                  (JupyterCodeTranslator.meta_text Sample.with_welcome)).
Proof.
  eexists _, _. split; [reflexivity|]. split; [reflexivity|].
  split; [vm_compute; reflexivity|]. split; [reflexivity | by vm_compute].
Qed.

(** C6, amended. When no welcome block is configured: all through the
    traversal the metadata cell, if metadata writing is enabled, is the
    first cell of the stream; and at the end of the document the header
    cells configured for the language of the document are inserted right
    after it, or at position zero when metadata writing is disabled, last
    one first, so that they stand in the order of the configuration,
    before every cell of the traversal. *)
Theorem headers_follow_the_metadata_cell `{Utils}
    b s0 events s headers hs :
  JupyterTranslator.init b = inr s0 ->
  JupyterCodeTranslator.full_path_to_welcome b = None ->
  translate_events events s0 = Return tt s ->
  JupyterCodeTranslator.jupyter_headers (base s) = Some headers ->
  final_lang (base s) ≫= (fun l => headers !! l) = Some hs ->
  (forall kernels,
     JupyterCodeTranslator.jupyter_kernels (base s) = Some kernels ->
     is_Some (final_lang (base s) ≫= (fun l => kernels !! l))) ->
  exists s' body pending,
    handle (Depart document) s = Return tt s' /\
    cells_of s' = metadata_cells b ++ hs ++ body /\
    cells_of s ++ pending = metadata_cells b ++ body /\
    Forall is_markdown pending.
Proof.
  intros Hinit Hwelcome Hrun Hheaders Hhs Hkernels.
  pose proof (run_metadata_first b events s0 s Hrun
                (init_metadata_first b s0 Hinit Hwelcome)) as [Hwm Hfirst].
  destruct (add_markdown_cell_shape s) as (pending & lines & Hflush & Hmd).
  destruct (depart_document_headers
              (JupyterCodeTranslator.set_cells (cells_of s ++ pending) (base s))
              headers hs Hheaders Hhs Hkernels) as (c' & Hdepart & Hcells).
  simpl in Hcells. rewrite Hwm in Hcells.
  exists (set_base c'
            (set_markdown_lines lines
               (set_base
                  (JupyterCodeTranslator.set_cells (cells_of s ++ pending)
                     (base s)) s))).
  unfold metadata_cells.
  destruct (JupyterCodeTranslator.config_jupyter_write_metadata b) eqn:Hon.
  - destruct (Hfirst eq_refl) as [rest Hrest].
    exists (rest ++ pending), pending. split; [|split; [|split]].
    + unfold handle, dispatch, dispatch_departure, depart_document, bind.
      rewrite Hflush. unfold super. simpl base. by rewrite Hdepart.
    + unfold cells_of at 1. simpl. rewrite Hcells, Hrest. simpl.
      by rewrite insert_headers_after_first.
    + by rewrite Hrest.
    + done.
  - exists (cells_of s ++ pending), pending. split; [|split; [|split]].
    + unfold handle, dispatch, dispatch_departure, depart_document, bind.
      rewrite Hflush. unfold super. simpl base. by rewrite Hdepart.
    + unfold cells_of at 1. simpl. rewrite Hcells.
      by rewrite insert_headers_at_start.
    + done.
    + done.
Qed.

Lemma headers_follow_the_metadata_cell_witness :
  exists s0 s s' body pending,
    JupyterTranslator.init Sample.with_metadata = inr s0 /\
    translate_events (H := Sample.utils)
      [Visit document; Visit paragraph; Visit (Text "Hi"); Depart (Text "Hi");
       Depart paragraph] s0 = Return tt s /\
    handle (H := Sample.utils) (Depart document) s = Return tt s' /\
    cells_of s' =
      metadata_cells Sample.with_metadata
      ++ [Sample.header1; Sample.header2] ++ body /\
    cells_of s ++ pending = metadata_cells Sample.with_metadata ++ body /\
    Forall is_markdown pending.
Proof.
  eexists _, _.
  assert (Hrun :
    translate_events (H := Sample.utils)
      [Visit document; Visit paragraph; Visit (Text "Hi"); Depart (Text "Hi");
       Depart paragraph]
      (match JupyterTranslator.init Sample.with_metadata with
       | inr s0 => s0
       | inl _ => Sample.state []
       end)
    = Return tt
        (set_markdown_lines ["Hi"; sep_paras]
           (set_base
              (JupyterCodeTranslator.set_lang (Some "python3")
                 (base (match JupyterTranslator.init Sample.with_metadata with
                        | inr s0 => s0
                        | inl _ => Sample.state []
                        end)))
              (match JupyterTranslator.init Sample.with_metadata with
               | inr s0 => s0
               | inl _ => Sample.state []
               end)))).
  { vm_compute. reflexivity. }
  destruct (headers_follow_the_metadata_cell (H := Sample.utils)
              Sample.with_metadata _ _ _
              {[ "python3" := [Sample.header1; Sample.header2] ]}
              [Sample.header1; Sample.header2]
              eq_refl eq_refl Hrun eq_refl eq_refl)
    as (s' & body & pending & Hs' & Hcells & Hbody & Hmd).
  { intros kernels Hk. inversion Hk. by eexists. }
  exists s', body, pending. split; [reflexivity|].
  split; [exact Hrun|]. done.
Defined.

(** * Further facts about the general methods *)

Section SplitFacts.
Import Py.

Lemma split_absent sep s :
  contains sep s = false -> split sep s = [s].
Proof.
  induction s as [|c s IH]; simpl; [done|].
  destruct (Ascii.eqb c sep); simpl; [done|]. intros Hs. by rewrite IH.
Qed.

Lemma split_app_sep sep s r :
  contains sep s = false ->
  split sep (s +:+ String sep r) = s :: split sep r.
Proof.
  induction s as [|c s IH].
  - intros _. rewrite ?str_app_nil_l. simpl. by rewrite Ascii.eqb_refl.
  - simpl. destruct (Ascii.eqb c sep) eqn:Hc; simpl; [done|]. intros Hs.
    rewrite ?str_app_cons. simpl. rewrite ?Hc. by rewrite IH.
Qed.

Lemma split_snoc_sep sep s :
  split sep (s +:+ String sep EmptyString) = split sep s ++ [EmptyString].
Proof.
  induction s as [|c s IH].
  - rewrite ?str_app_nil_l. simpl. by rewrite Ascii.eqb_refl.
  - rewrite ?str_app_cons. simpl. rewrite IH.
    destruct (Ascii.eqb c sep); [done|].
    by destruct (split_cons sep s) as (h & t & ->).
Qed.

(** No line that [split] gives holds the separator. *)
Lemma split_lines_free sep s :
  Forall (fun l => contains sep l = false) (split sep s).
Proof.
  induction s as [|c s IH]; simpl.
  - by apply Forall_singleton.
  - destruct (Ascii.eqb c sep) eqn:Hc.
    + by apply Forall_cons.
    + destruct (split_cons sep s) as (h & t & Hs). rewrite Hs in IH |- *.
      apply Forall_cons in IH as [Hh Ht]. apply Forall_cons.
      split; [|done]. simpl. by rewrite Hc.
Qed.

(** Splitting what [join] made of lines without line feeds gives the
    lines back. *)
Lemma split_join lines :
  lines <> [] ->
  Forall (fun l => contains LF l = false) lines ->
  split LF (join nl lines) = lines.
Proof.
  induction lines as [|x lines IH]; [done|]. intros _ Hfree.
  apply Forall_cons in Hfree as [Hx Hlines].
  rewrite join_cons. destruct lines as [|y lines].
  - rewrite str_app_nil_r. by apply split_absent.
  - unfold nl at 1. rewrite str_app_cons, str_app_nil_l.
    rewrite split_app_sep by done. by rewrite IH.
Qed.

Lemma all_space_join_lines lines :
  all_space (join nl lines) = forallb all_space lines.
Proof.
  induction lines as [|x lines IH]; [done|].
  rewrite join_cons, all_space_app. simpl. destruct lines as [|y lines].
  - simpl. by rewrite andb_true_r.
  - rewrite all_space_app, IH. reflexivity.
Qed.

End SplitFacts.

Section StripLoopFacts.
Import Py JupyterCodeTranslator.

Lemma strip_loop_settled n lines :
  settled lines -> strip_loop n lines = lines.
Proof.
  unfold settled. destruct n as [|n]; simpl; [done|].
  destruct (last lines) as [l|]; [|done]. intros Hl.
  destruct (String.length (strip l) =? 0) eqn:Hb; [|done].
  by apply Nat.eqb_eq in Hb.
Qed.

(** With a step for every line the loop runs to the end. *)
Lemma strip_loop_runs_out n : forall lines,
  length lines <= n -> settled (strip_loop n lines).
Proof.
  induction n as [|n IH]; intros lines Hlen; simpl.
  - destruct lines; [done | simpl in Hlen; lia].
  - destruct (last lines) as [l|] eqn:Hlast.
    + destruct (String.length (strip l) =? 0) eqn:Hb.
      * apply IH. apply last_Some in Hlast as [lines' ->].
        rewrite init_snoc. rewrite length_app in Hlen. simpl in Hlen. lia.
      * unfold settled. rewrite Hlast. intros Hblank.
        apply Nat.eqb_neq in Hb. by apply Hb.
    + unfold settled. by rewrite Hlast.
Qed.

Lemma strip_loop_all_blank n : forall lines,
  Forall blank lines -> length lines <= n -> strip_loop n lines = [].
Proof.
  induction n as [|n IH]; intros lines Hb Hlen; simpl.
  - destruct lines; [done | simpl in Hlen; lia].
  - destruct (last lines) as [l|] eqn:Hlast.
    + apply last_Some in Hlast as [lines' ->].
      apply Forall_app in Hb as [Hb' Hl]. apply Forall_inv in Hl.
      unfold blank in Hl. rewrite Hl. simpl. rewrite init_snoc.
      apply IH; [done|]. rewrite length_app in Hlen. simpl in Hlen. lia.
    + by apply last_None in Hlast.
Qed.

Lemma strip_blank_lines_empty :
  strip_blank_lines_in_end_of_block EmptyString = EmptyString.
Proof. reflexivity. Qed.

(** The result is the join of lines without line feeds, none at all or
    the last of them not blank. *)
Lemma strip_blank_lines_as_join line_text :
  exists keep,
    strip_blank_lines_in_end_of_block line_text = join nl keep /\
    Forall (fun l => contains LF l = false) keep /\
    settled keep.
Proof.
  unfold strip_blank_lines_in_end_of_block.
  set (lines := split LF line_text).
  exists (strip_loop (length lines) lines). split; [done|]. split.
  - destruct (strip_loop_prefix (length lines) lines) as (dropped & Hd & _).
    pose proof (split_lines_free LF line_text) as Hall.
    fold lines in Hall. rewrite Hd in Hall.
    by apply Forall_app in Hall as [? _].
  - by apply strip_loop_runs_out.
Qed.

Lemma strip_blank_lines_of_settled keep :
  Forall (fun l => contains LF l = false) keep ->
  settled keep ->
  strip_blank_lines_in_end_of_block (join nl keep) = join nl keep.
Proof.
  intros Hfree Hsettled. destruct keep as [|x keep]; [reflexivity|].
  unfold strip_blank_lines_in_end_of_block.
  rewrite split_join by done. by rewrite strip_loop_settled.
Qed.

End StripLoopFacts.

(** X1. [strip_blank_lines_in_end_of_block] is idempotent, and its result
    does not end in a blank line: the result is empty, or the last of its
    lines holds a character that is not white space. *)
Theorem strip_blank_lines_idempotent line_text :
  JupyterCodeTranslator.strip_blank_lines_in_end_of_block
    (JupyterCodeTranslator.strip_blank_lines_in_end_of_block line_text)
  = JupyterCodeTranslator.strip_blank_lines_in_end_of_block line_text /\
  (JupyterCodeTranslator.strip_blank_lines_in_end_of_block line_text
     = EmptyString \/
   exists lines l,
     Py.split Py.LF
       (JupyterCodeTranslator.strip_blank_lines_in_end_of_block line_text)
       = lines ++ [l] /\
     all_space l = false).
Proof.
  destruct (strip_blank_lines_as_join line_text)
    as (keep & -> & Hfree & Hsettled).
  split; [by apply strip_blank_lines_of_settled|].
  destruct (last keep) as [l|] eqn:Hlast.
  - right. unfold settled in Hsettled. rewrite Hlast in Hsettled.
    apply last_Some in Hlast as [ls Hls].
    exists ls, l. split.
    + rewrite split_join; [done | by rewrite Hls; destruct ls | done].
    + destruct (all_space l) eqn:Hl; [|done].
      exfalso. apply Hsettled. by apply blank_all_space.
  - left. apply last_None in Hlast. by rewrite Hlast.
Qed.

(** X2. [strip_blank_lines_in_end_of_block] gives the empty string exactly
    for a text of white space only, the empty text included. *)
Theorem strip_blank_lines_empty_iff line_text :
  JupyterCodeTranslator.strip_blank_lines_in_end_of_block line_text
    = EmptyString
  <-> all_space line_text = true.
Proof.
  split.
  - intros Hempty.
    destruct (strip_blank_lines_prefix line_text) as (tail & Ht & Hs).
    rewrite Hempty in Ht. by rewrite Ht.
  - intros Hs. unfold JupyterCodeTranslator.strip_blank_lines_in_end_of_block.
    rewrite strip_loop_all_blank; [done | | done].
    rewrite <- (join_split line_text), all_space_join_lines in Hs.
    apply Forall_forall. intros l Hl. apply blank_all_space.
    rewrite forallb_forall in Hs. apply Hs. by apply list_elem_of_In.
Qed.

(** X3. A line feed at the end of a text, and so the paragraph separator
    too, does not change what [strip_blank_lines_in_end_of_block] makes of
    it. *)
Theorem strip_blank_lines_trailing_line_feed line_text :
  JupyterCodeTranslator.strip_blank_lines_in_end_of_block
    (line_text +:+ Py.nl)
  = JupyterCodeTranslator.strip_blank_lines_in_end_of_block line_text /\
  JupyterCodeTranslator.strip_blank_lines_in_end_of_block
    (line_text +:+ sep_paras)
  = JupyterCodeTranslator.strip_blank_lines_in_end_of_block line_text.
Proof.
  assert (Hnl : forall t,
    JupyterCodeTranslator.strip_blank_lines_in_end_of_block (t +:+ Py.nl)
    = JupyterCodeTranslator.strip_blank_lines_in_end_of_block t).
  { intros t. unfold JupyterCodeTranslator.strip_blank_lines_in_end_of_block.
    unfold Py.nl at 1. rewrite split_snoc_sep, length_app. simpl length.
    rewrite Nat.add_1_r. simpl JupyterCodeTranslator.strip_loop.
    by rewrite last_snoc, init_snoc. }
  split; [apply Hnl|].
  unfold sep_paras. by rewrite <- str_app_assoc, !Hnl.
Qed.

(** * What every method keeps *)

Section Frame.
Context `{Utils}.
Import JupyterCodeTranslator.

Lemma fresh_markdown pending :
  Forall is_markdown pending -> Forall fresh_cell pending.
Proof.
  intros Hmd. eapply Forall_impl; [exact Hmd|]. by intros [| |].
Qed.

Lemma fresh_generated t text nodelang :
  t <> CODE_OUTPUT -> fresh_cell (Generate t text nodelang).
Proof. by destruct t. Qed.

Lemma init_last {A} (l : list A) x :
  last l = Some x -> l = Py.init l ++ [x].
Proof.
  intros Hl. apply last_Some in Hl as [l' ->]. by rewrite init_snoc.
Qed.

Ltac flush_cells Hrun :=
  match type of Hrun with
  | context [add_markdown_cell ?st] =>
      let pending := fresh "pending" in
      let lines := fresh "lines" in
      let Hflush := fresh "Hflush" in
      let Hmd := fresh "Hmd" in
      destruct (add_markdown_cell_shape st)
        as (pending & lines & Hflush & Hmd);
      apply fresh_markdown in Hmd;
      rewrite Hflush in Hrun; clear Hflush; exec_in Hrun
  end.

(** One method on the translator: the configuration stays, the reports
    only grow, the cell stream changes by a [stream_step] and the language
    by a [lang_step]. *)
Lemma handle_frame e s s' :
  handle e s = Return tt s' ->
  configuration s' = configuration s /\
  (exists reports, reporter (base s') = reporter (base s) ++ reports) /\
  stream_step e s s' /\
  lang_step s s'.
Proof.
  intros Hrun.
  unfold stream_step, lang_step, lang_settled, configuration, cells_of.
  destruct e as [n|n]; destruct n; exec_in Hrun;
    try flush_cells Hrun;
    repeat case_match; simplify_eq; simpl in *; try done;
    try flush_cells Hrun; simplify_eq;
    try (match goal with
         | Hf : add_markdown_cell ?st = _ |- _ =>
             destruct (add_markdown_cell_shape st)
               as (pending & lines & Hflush & Hmd);
             apply fresh_markdown in Hmd;
             rewrite Hflush in Hf; simplify_eq
         end);
    unfold cells_of in *; simpl in *.
  all: split; [congruence|].
  all: split;
    [first [ by exists []; rewrite app_nil_r
           | by eexists
           | by eexists; rewrite <- ?app_assoc ]|].
  all: split;
    [first [ by left; exists []; rewrite app_nil_r
           | by left; eexists; split; [reflexivity|]
           | by left; eexists; split;
               [reflexivity|apply Forall_singleton]
           | by right; right; split; [done|];
               eexists _, _, _, _; split; [eassumption|];
               split; [eassumption|]; split; [eassumption|reflexivity]
           | by right; left; eexists _, _, _; split;
               [apply init_last; eassumption|reflexivity]
           | idtac ]
    |first [ by left
           | by right; eexists; split; [reflexivity|left]
           | by right; eexists; split; [reflexivity|right; eauto]
           | idtac ]].
  all: right; right; split; [done|].
  all: repeat match goal with
         | Hl : ?o ≫= _ = Some _ |- _ =>
             destruct o eqn:?; simpl in Hl; [|done]
         end.
  all: eexists _, _, _, _; split; [eassumption|].
  all: split; [eassumption|]; split; [eassumption|reflexivity].
Qed.

End Frame.

Section RunFrame.
Context `{Utils}.
Import JupyterCodeTranslator.

Lemma insert_perm {A} k (h : A) cs : Py.insert k h cs ≡ₚ h :: cs.
Proof.
  unfold Py.insert. rewrite <- Permutation_middle.
  by rewrite take_drop.
Qed.

Lemma insert_sublist {A} k (h : A) cs : cs `sublist_of` Py.insert k h cs.
Proof.
  unfold Py.insert. rewrite <- (take_drop k cs) at 1.
  apply sublist_app; [done|]. by apply sublist_cons.
Qed.

Lemma insert_headers_perm wm hs cs : insert_headers wm hs cs ≡ₚ hs ++ cs.
Proof.
  unfold insert_headers. induction hs as [|h hs IH]; [done|].
  rewrite reverse_cons, foldl_snoc.
  destruct wm; rewrite insert_perm, IH; done.
Qed.

Lemma insert_headers_sublist wm hs cs :
  cs `sublist_of` insert_headers wm hs cs.
Proof.
  unfold insert_headers. induction hs as [|h hs IH]; [done|].
  rewrite reverse_cons, foldl_snoc.
  etrans; [exact IH|]. destruct wm; apply insert_sublist.
Qed.

Lemma stream_step_sublist e s s' :
  stream_step e s s' ->
  (skeleton <$> cells_of s) `sublist_of` (skeleton <$> cells_of s').
Proof.
  intros [(new & -> & _)|[(cs & src & text & -> & ->)|
    (_ & pending & headers & l & hs & _ & _ & _ & ->)]].
  - rewrite fmap_app. by apply sublist_inserts_r.
  - by rewrite !fmap_app.
  - apply fmap_sublist. etrans; [|apply insert_headers_sublist].
    by apply sublist_inserts_r.
Qed.

Lemma stream_step_prefix e s s' :
  stream_step e s s' -> e <> Depart document ->
  (skeleton <$> cells_of s) `prefix_of` (skeleton <$> cells_of s').
Proof.
  intros [(new & -> & _)|[(cs & src & text & -> & ->)|(-> & _)]] He;
    [| |done].
  - rewrite fmap_app. by apply prefix_app_r.
  - by rewrite !fmap_app.
Qed.

Lemma fresh_cells_ok new : Forall fresh_cell new -> stream_ok new.
Proof.
  intros Hnew. eapply Forall_impl; [exact Hnew|].
  intros [?|? ?|?]; simpl; [done| |done]. intros ->. simpl. lia.
Qed.

Lemma stream_step_ok e s s' :
  stream_step e s s' -> headers_ok s ->
  stream_ok (cells_of s) -> stream_ok (cells_of s').
Proof.
  unfold stream_ok.
  intros [(new & -> & Hnew)|[(cs & src & text & -> & ->)|
    (_ & pending & headers & l & hs & Hp & Hh & Hl & ->)]] Hhs Hok.
  - apply Forall_app. split; [done|]. by apply fresh_cells_ok.
  - apply Forall_app in Hok as [Hcs _]. apply Forall_app. split; [done|].
    apply Forall_singleton. simpl. lia.
  - rewrite insert_headers_perm. apply Forall_app. split.
    + by apply (Hhs headers l).
    + apply Forall_app. split; [done|]. by apply fresh_cells_ok.
Qed.

Lemma lang_step_settled s s' :
  lang_step s s' -> configuration s' = configuration s ->
  lang_settled s -> lang_settled s'.
Proof.
  intros [Hl|Hl] Hc; [|done]. unfold configuration in Hc.
  intros (l & Hs & Hor). exists l. split; [congruence|].
  destruct Hor as [->|(kernels & Hk & Hin)]; [left|right].
  - congruence.
  - exists kernels. split; [congruence|done].
Qed.

(** The methods of a whole run, one after the other. *)
Lemma run_ind (P : JupyterTranslator.self -> JupyterTranslator.self -> Prop)
    events :
  (forall s, P s s) ->
  (forall s1 s2 s3, P s1 s2 -> P s2 s3 -> P s1 s3) ->
  (forall e s s', e ∈ events -> handle e s = Return tt s' -> P s s') ->
  forall s s', translate_events events s = Return tt s' -> P s s'.
Proof.
  intros Hrefl Htrans. unfold translate_events, handle.
  induction events as [|e events IH]; intros Hstep s s' Hrun.
  - simpl in Hrun. unfold ret in Hrun. by simplify_eq.
  - simpl in Hrun. unfold bind in Hrun.
    destruct (dispatch add_markdown_cell e s) as [[] s1|] eqn:He; [|done].
    eapply Htrans.
    + apply (Hstep e); [left|done].
    + apply IH; [|done]. intros e' s2 s3 Hin. apply Hstep. by right.
Qed.

Lemma run_cons e events s s' :
  translate_events (e :: events) s = Return tt s' ->
  exists s1,
    handle e s = Return tt s1 /\ translate_events events s1 = Return tt s'.
Proof.
  unfold translate_events, handle. intros Hrun.
  change (run add_markdown_cell (e :: events) s)
    with (bind (dispatch add_markdown_cell e)
            (fun _ => run add_markdown_cell events) s) in Hrun.
  unfold bind in Hrun.
  destruct (dispatch add_markdown_cell e s) as [[] s1|]; [|done]. eauto.
Qed.

Lemma visit_document_settles s s1 :
  handle (Visit document) s = Return tt s1 ->
  lang_settled s1 /\ configuration s1 = configuration s.
Proof.
  intros He. unfold handle in He. exec_in He. simplify_eq. split; [|done].
  eexists. split; [reflexivity|]. by left.
Qed.

Lemma run_configuration events s s' :
  translate_events events s = Return tt s' ->
  configuration s' = configuration s.
Proof.
  apply (run_ind (fun s s' => configuration s' = configuration s)).
  - done.
  - intros ??? H1 H2. by rewrite H2.
  - intros e s1 s2 _ Hrun. by apply handle_frame in Hrun as (? & _).
Qed.

Lemma run_keeps_cells events s s' :
  translate_events events s = Return tt s' ->
  (skeleton <$> cells_of s) `sublist_of` (skeleton <$> cells_of s').
Proof.
  revert s s'.
  apply (run_ind (fun s s' =>
    (skeleton <$> cells_of s) `sublist_of` (skeleton <$> cells_of s'))).
  - done.
  - intros ??? H1 H2. by etrans.
  - intros e s1 s2 _ Hh. apply handle_frame in Hh as (_ & _ & Hs & _).
    by eapply stream_step_sublist.
Qed.

(** X4. Over any part of a traversal that returns, the cells already in
    the stream stay, with their type, their body and their order: the
    stream before is a sublist of the stream after, and a prefix of it
    when the part does not hold the end of the document. The reports
    already made stay as well. (An output attached to a code cell changes
    neither its type nor its body.) *)
Theorem cells_and_reports_are_kept events s s' :
  translate_events events s = Return tt s' ->
  (skeleton <$> cells_of s) `sublist_of` (skeleton <$> cells_of s') /\
  (Depart document ∉ events ->
   (skeleton <$> cells_of s) `prefix_of` (skeleton <$> cells_of s')) /\
  reporter (base s) `prefix_of` reporter (base s').
Proof.
  intros Hrun. split; [|split].
  - by eapply run_keeps_cells.
  - intros Hend. revert s s' Hrun.
    apply (run_ind (fun s s' =>
      (skeleton <$> cells_of s) `prefix_of` (skeleton <$> cells_of s'))).
    + done.
    + intros ??? H1 H2. by etrans.
    + intros e s1 s2 Hin Hh. apply handle_frame in Hh as (_ & _ & Hs & _).
      eapply stream_step_prefix; [done|]. by intros ->.
  - revert s s' Hrun.
    apply (run_ind (fun s s' => reporter (base s) `prefix_of` reporter (base s'))).
    + done.
    + intros ??? H1 H2. by etrans.
    + intros e s1 s2 _ Hh.
      apply handle_frame in Hh as (_ & (reports & ->) & _).
      by apply prefix_app_r.
Qed.

(** X5. When the stream holds no bare output and no code cell with more
    than one output, and the configured header cells are of that kind too,
    the same holds after any traversal that returns, the end of the document
    included: an output block never becomes a cell of its own and never a
    second output of a cell. *)
Theorem outputs_stay_single events s s' :
  translate_events events s = Return tt s' ->
  headers_ok s -> stream_ok (cells_of s) ->
  stream_ok (cells_of s').
Proof.
  intros Hrun Hhs Hok.
  cut (headers_ok s' /\ stream_ok (cells_of s')); [by intros [_ ?]|].
  revert s s' Hrun Hhs Hok.
  apply (run_ind (fun s s' =>
    headers_ok s -> stream_ok (cells_of s) ->
    headers_ok s' /\ stream_ok (cells_of s'))).
  - done.
  - intros s1 s2 s3 H1 H2 Hhs Hok. destruct (H1 Hhs Hok). by apply H2.
  - intros e s1 s2 _ Hh Hhs Hok.
    apply handle_frame in Hh as (Hc & _ & Hs & _). split.
    + unfold headers_ok, configuration in *. intros headers l hs Hh.
      apply (Hhs headers l hs). congruence.
    + by eapply stream_step_ok.
Qed.

(** X6. After [visit_document], whatever the traversal does next, the
    language of the document is set, and it is the default language or a
    key of the kernel table; and no traversal changes the configuration that
    the constructor read (kernels, headers, the metadata switch, the default
    language, the name of the source file). *)
Theorem language_is_default_or_a_kernel events s s' :
  translate_events (Visit document :: events) s = Return tt s' ->
  lang_settled s' /\ configuration s' = configuration s.
Proof.
  intros Hrun. split; [|by eapply run_configuration].
  apply run_cons in Hrun as (s1 & He & Hrun).
  apply visit_document_settles in He as [Hs1 _].
  revert s1 s' Hrun Hs1.
  apply (run_ind (fun s s' => lang_settled s -> lang_settled s')).
  - done.
  - eauto.
  - intros e s1 s2 _ Hh. apply handle_frame in Hh as (Hc & _ & _ & Hl).
    by apply lang_step_settled.
Qed.

(** [depart_document] of the superclass on a translator whose language is
    settled and whose kernel table knows the default language. *)
Lemma depart_document_settled c s :
  lang_settled s -> default_kernel s ->
  lang c = lang (base s) -> default_lang c = default_lang (base s) ->
  jupyter_kernels c = jupyter_kernels (base s) ->
  exists c', JupyterCodeTranslator.depart_document c = Return tt c'.
Proof.
  intros (l & Hl & Hor) Hdef Hlc Hdc Hkc.
  assert (Hfinal : forall kernels,
            jupyter_kernels c = Some kernels ->
            is_Some (final_lang c ≫= (fun l => kernels !! l))).
  { intros kernels Hk. rewrite Hkc in Hk. unfold final_lang.
    rewrite Hlc, Hl, Hdc. destruct (truthy (Some l)); simpl.
    - destruct Hor as [->|(kernels' & Hk' & Hin)]; [by apply Hdef|].
      by simplify_eq.
    - by apply Hdef. }
  unfold final_lang in Hfinal. exec.
  destruct (truthy (lang c)) eqn:Ht; simpl;
    destruct (jupyter_headers c) as [headers|]; simpl;
    repeat case_match; simplify_eq; simpl in *; eauto;
    exfalso;
    (edestruct Hfinal as [x Hx]; [first [eassumption|reflexivity]|]);
    simpl in *; congruence.
Qed.

(** X7. A traversal that started with [visit_document] and has returned
    so far can close the document: when the kernel table (if one is
    configured) has an entry for the default language, [depart_document]
    returns, whatever [highlightlang] nodes the document held. The lookup
    that could raise [KeyError] always finds its key. *)
Theorem document_end_returns events s s' :
  translate_events (Visit document :: events) s = Return tt s' ->
  default_kernel s ->
  exists s'', handle (Depart document) s' = Return tt s''.
Proof.
  intros Hrun Hdef.
  assert (Hset : lang_settled s' /\ configuration s' = configuration s).
  { apply run_cons in Hrun as (s1 & He & Hrun).
    apply visit_document_settles in He as [Hs1 Hc1].
    rewrite <- Hc1. clear Hc1.
    revert s1 s' Hrun Hs1.
    apply (run_ind (fun s s' =>
      lang_settled s -> lang_settled s' /\ configuration s' = configuration s)).
    - done.
    - intros s1 s2 s3 H1 H2 Hs. destruct (H1 Hs) as [Hs2 Hc2].
      destruct (H2 Hs2) as [Hs3 Hc3]. split; [done|]. by rewrite Hc3.
    - intros e s1 s2 _ Hh Hs. apply handle_frame in Hh as (Hc & _ & _ & Hl).
      split; [|done]. by apply (lang_step_settled s1). }
  destruct Hset as [Hset Hc].
  assert (Hdef' : default_kernel s').
  { unfold default_kernel, configuration in *. intros kernels Hk.
    replace (default_lang (base s')) with (default_lang (base s))
      by congruence.
    apply Hdef. congruence. }
  change (handle (Depart document) s')
    with (bind add_markdown_cell
            (fun _ => super JupyterCodeTranslator.depart_document) s').
  unfold bind.
  destruct (add_markdown_cell_shape s') as (pending & lines & -> & _).
  unfold super.
  change (base (set_markdown_lines lines
                  (set_base (set_cells (cells_of s' ++ pending) (base s'))
                     s')))
    with (set_cells (cells_of s' ++ pending) (base s')).
  destruct (depart_document_settled
              (set_cells (cells_of s' ++ pending) (base s')) s'
              Hset Hdef' eq_refl eq_refl eq_refl)
    as [c' ->].
  by eexists.
Qed.

End RunFrame.

Lemma cells_and_reports_are_kept_witness :
  let s := Sample.state ["Hello"; sep_paras] in
  let events := walkabout (Tree title [Tree (Text "Next") []]) in
  let s' := set_markdown_lines ["# "; "Next"; sep_paras] (flushed s) in
  (skeleton <$> cells_of s) `sublist_of` (skeleton <$> cells_of s') /\
  (Depart document ∉ events ->
   (skeleton <$> cells_of s) `prefix_of` (skeleton <$> cells_of s')) /\
  JupyterCodeTranslator.reporter (base s)
    `prefix_of` JupyterCodeTranslator.reporter (base s').
Proof.
  intros s events s'.
  apply (cells_and_reports_are_kept (H := Sample.utils) events s s').
  vm_compute. reflexivity.
Defined.

Lemma outputs_stay_single_witness :
  let s := Sample.state ["Hello"] in
  let events :=
    flat_map walkabout
      (literal_blocks [([], None, ["x = 1"]); (["output"], None, ["1"]);
                       (["output"], None, ["again"])]) ++
    [Depart document] in
  stream_ok (cells_of (final_state (H := Sample.utils) events s)).
Proof.
  intros s events.
  apply (outputs_stay_single (H := Sample.utils) events s).
  - vm_compute. reflexivity.
  - intros headers l hs Hh Hl. simpl in Hh. injection Hh as <-.
    by rewrite lookup_empty in Hl.
  - apply Forall_nil_2.
Defined.

Lemma language_is_default_or_a_kernel_witness :
  let s := Sample.state [] in
  let events :=
    [Visit (highlightlang "julia"); Depart (highlightlang "julia")] in
  let s' := final_state (H := Sample.utils) (Visit document :: events) s in
  lang_settled s' /\ configuration s' = configuration s.
Proof.
  intros s events s'.
  apply (language_is_default_or_a_kernel (H := Sample.utils) events s s').
  vm_compute. reflexivity.
Defined.

Lemma document_end_returns_witness :
  let s := Sample.state [] in
  let events :=
    [Visit (highlightlang "julia"); Depart (highlightlang "julia")] in
  let s' := final_state (H := Sample.utils) (Visit document :: events) s in
  exists s'', handle (H := Sample.utils) (Depart document) s' = Return tt s''.
Proof.
  intros s events s'.
  apply (document_end_returns (H := Sample.utils) events s s').
  - vm_compute. reflexivity.
  - intros kernels Hk. simpl in Hk. injection Hk as <-.
    by eexists.
Defined.

(** * Flushing twice, and headings *)

Section FlushTwice.
Import JupyterCodeTranslator.

Lemma flushed_not_flushable s : flushable (flushed s) = false.
Proof. reflexivity. Qed.

Lemma pending_text_settled s :
  strip_blank_lines_in_end_of_block (pending_text s) = pending_text s.
Proof.
  unfold pending_text.
  destruct (strip_blank_lines_as_join
              (Py.join EmptyString (markdown_lines s)))
    as (keep & -> & Hfree & Hsettled).
  by apply strip_blank_lines_of_settled.
Qed.

Lemma repeat_length c n :
  String.length (Py.repeat (String c EmptyString) n) = Z.to_nat n.
Proof.
  unfold Py.repeat. induction (Z.to_nat n) as [|k IH]; [done|].
  change (String.concat EmptyString (replicate (S k) (String c EmptyString)))
    with (Py.join EmptyString
            (String c EmptyString :: replicate k (String c EmptyString))).
  rewrite join_cons, str_app_cons, str_app_nil_l. simpl. f_equal.
  destruct (replicate k (String c EmptyString)) eqn:Hk.
  - by destruct k.
  - rewrite str_app_nil_l. exact IH.
Qed.

End FlushTwice.

(** X8. A flush always returns, and a second flush right after it changes
    nothing. When the flush emits a cell, the body of the cell holds a
    character that is not white space, does not end in a blank line (stripping
    it again gives the same text), and the buffer is empty afterwards. *)
Theorem flush_twice s :
  exists s',
    add_markdown_cell s = Return tt s' /\
    add_markdown_cell s' = Return tt s' /\
    (s' = s \/
     exists body,
       cells_of s' = cells_of s ++ [new_markdown_cell body] /\
       markdown_lines s' = [] /\
       all_space body = false /\
       JupyterCodeTranslator.strip_blank_lines_in_end_of_block body = body).
Proof.
  destruct (flushable s) eqn:Hf.
  - exists (flushed s). split; [by apply add_markdown_cell_flushable|].
    split; [by apply add_markdown_cell_blank|].
    right. exists (pending_text s). split; [done|]. split; [done|].
    split; [|apply pending_text_settled].
    unfold pending_text. rewrite all_space_strip_blank_lines.
    rewrite flushable_spec in Hf. by destruct (all_space _).
  - exists s. split; [by apply add_markdown_cell_blank|].
    split; [by apply add_markdown_cell_blank|]. by left.
Qed.

(** X9. [visit_title] always returns, and leaves the heading marker as
    the last fragment of the buffer with nothing but white space before
    it: a heading opens its cell. The marker is one hash per section level
    (one more inside a topic) and a space; at level zero or below it is
    the space alone. *)
Theorem heading_opens_a_cell `{Utils} s :
  let level := (section_level s + if in_topic s then 1 else 0)%Z in
  exists s' before,
    handle (Visit title) s = Return tt s' /\
    markdown_lines s' = before ++ [Py.repeat "#" level +:+ " "] /\
    all_space (Py.join EmptyString before) = true /\
    String.length (Py.repeat "#" level) = Z.to_nat level /\
    cells_of s' = cells_of s ++
                  (if flushable s then [new_markdown_cell (pending_text s)]
                   else []).
Proof.
  intros level.
  assert (Hstep : forall s1,
    add_markdown_cell s = Return tt s1 ->
    in_topic s1 = in_topic s -> section_level s1 = section_level s ->
    handle (Visit title) s =
      Return tt (set_markdown_lines
                   (markdown_lines s1 ++ [Py.repeat "#" level +:+ " "]) s1)).
  { intros s1 Hs1 Ht Hl. unfold handle. simpl. unfold visit_title, bind.
    rewrite Hs1. unfold gets, append, modify. rewrite Ht, Hl. unfold level.
    destruct (in_topic s); [done|]. by rewrite Z.add_0_r. }
  destruct (flushable s) eqn:Hf.
  - exists (set_markdown_lines [Py.repeat "#" level +:+ " "] (flushed s)), [].
    split; [|split; [done|split; [done|split; [apply repeat_length|done]]]].
    by rewrite (Hstep (flushed s)) by
      (by rewrite ?add_markdown_cell_flushable).
  - exists (set_markdown_lines
              (markdown_lines s ++ [Py.repeat "#" level +:+ " "]) s),
           (markdown_lines s).
    split; [|split; [done|split; [|split; [apply repeat_length|]]]].
    + by rewrite (Hstep s) by (by rewrite ?add_markdown_cell_blank).
    + rewrite flushable_spec in Hf. by destruct (all_space _).
    + simpl. by rewrite app_nil_r.
Qed.

(** * Subtrees *)

Section Subtrees.
Context `{Utils}.

(** Induction on a document tree, with the property for all children. *)
Lemma Doctree_forall_ind (P : Doctree -> Prop) :
  (forall n children, Forall P children -> P (Tree n children)) ->
  forall t, P t.
Proof.
  intros Hnode. fix IH 1. intros [n children]. apply Hnode.
  induction children as [|t children IHc]; constructor; [apply IH | exact IHc].
Qed.

Lemma run_snoc events e s s' :
  translate_events (events ++ [e]) s = Return tt s' ->
  exists s2,
    translate_events events s = Return tt s2 /\ handle e s2 = Return tt s'.
Proof.
  unfold translate_events, handle. rewrite run_app.
  destruct (run add_markdown_cell events s) as [[] s2|]; [|done].
  intros Hrun. exists s2. split; [done|].
  simpl in Hrun. unfold bind in Hrun.
  destruct (dispatch add_markdown_cell e s2) as [[] s3|]; [|done].
  unfold ret in Hrun. by simplify_eq.
Qed.

(** A traversal of a subtree: the visit, the children, the departure. *)
Lemma translate_tree_inv n children s s' :
  translate_tree (Tree n children) s = Return tt s' ->
  exists s1 s2,
    handle (Visit n) s = Return tt s1 /\
    translate_events (flat_map walkabout children) s1 = Return tt s2 /\
    handle (Depart n) s2 = Return tt s'.
Proof.
  unfold translate_tree. intros Hrun.
  change (walkabout (Tree n children))
    with (Visit n :: flat_map walkabout children ++ [Depart n]) in Hrun.
  apply run_cons in Hrun as (s1 & Hv & Hrun).
  apply run_snoc in Hrun as (s2 & Hc & Hd). eauto.
Qed.

Lemma translate_children_inv t children s s' :
  translate_events (flat_map walkabout (t :: children)) s = Return tt s' ->
  exists s1,
    translate_tree t s = Return tt s1 /\
    translate_events (flat_map walkabout children) s1 = Return tt s'.
Proof.
  unfold translate_tree, translate_events. simpl. rewrite run_app.
  destruct (run add_markdown_cell (walkabout t) s) as [[] s1|]; [|done].
  eauto.
Qed.

Lemma visit_depart_nesting n s s1 s2 s' :
  handle (Visit n) s = Return tt s1 ->
  nesting s2 = nesting s1 ->
  handle (Depart n) s2 = Return tt s' ->
  nesting s' = nesting s.
Proof.
  unfold handle, nesting. intros Hv Hn Hd.
  destruct n; exec_in Hv; try flush_step Hv;
    repeat case_match; simplify_eq; simpl in *; try done;
    try flush_step Hv; simplify_eq; simpl in *.
  all: exec_in Hd; try flush_step Hd;
    repeat case_match; simplify_eq; simpl in *; try done;
    try flush_step Hd; simplify_eq; simpl in *;
    try (match goal with
         | Hf : add_markdown_cell ?st = _ |- _ =>
             destruct (add_markdown_cell_shape st)
               as (pending' & lines' & Hflush & _);
             rewrite Hflush in Hf; simplify_eq
         end); simpl in *.
  all: try congruence.
  all: repeat match goal with |- (_, _) = (_, _) => f_equal end.
  all: first
    [ congruence
    | lia
    | match goal with
      | Heq : ?l = _ ++ [_] |- Py.init ?l = _ => rewrite Heq; apply init_snoc
      end ].
Qed.

Lemma children_nesting children :
  Forall (fun t => forall s s',
            translate_tree t s = Return tt s' -> nesting s' = nesting s)
         children ->
  forall s s',
    translate_events (flat_map walkabout children) s = Return tt s' ->
    nesting s' = nesting s.
Proof.
  induction 1 as [|t children Ht _ IH]; intros s s' Hrun.
  - unfold translate_events in Hrun. simpl in Hrun. unfold ret in Hrun.
    by simplify_eq.
  - apply translate_children_inv in Hrun as (s1 & Hhead & Htail).
    rewrite (IH _ _ Htail). by apply Ht.
Qed.

Lemma tree_nesting t : forall s s',
  translate_tree t s = Return tt s' -> nesting s' = nesting s.
Proof.
  induction t as [n children IH] using Doctree_forall_ind.
  intros s s' Hrun.
  apply translate_tree_inv in Hrun as (s1 & s2 & Hv & Hc & Hd).
  eapply visit_depart_nesting; [exact Hv| |exact Hd].
  by eapply children_nesting.
Qed.

Lemma trees_nesting children s s' :
  translate_events (flat_map walkabout children) s = Return tt s' ->
  nesting s' = nesting s.
Proof.
  apply children_nesting. apply Forall_forall. intros t _. apply tree_nesting.
Qed.

(** X10. A subtree whose traversal returns leaves the nesting as it found
    it: the section level, the list level, and the stacks of bullets,
    indents and item starts are those from before the subtree, whatever
    nodes it holds. So does a run of sibling subtrees. *)
Theorem subtrees_restore_nesting trees s s' :
  translate_events (flat_map walkabout trees) s = Return tt s' ->
  nesting s' = nesting s.
Proof. apply trees_nesting. Qed.

(** A method of a prose node, outside a code block: it returns, appends
    to the buffer and leaves the cells alone. *)
Lemma prose_event e s :
  prose_node (match e with Visit n | Depart n => n end) = true ->
  JupyterCodeTranslator.in_code_block (base s) = false ->
  exists s' added,
    handle e s = Return tt s' /\
    markdown_lines s' = markdown_lines s ++ added /\
    cells_of s' = cells_of s /\
    JupyterCodeTranslator.in_code_block (base s') = false.
Proof.
  intros Hn Hcode. unfold handle, cells_of.
  destruct e as [n|n]; destruct n; try discriminate Hn; exec;
    rewrite ?Hcode; simpl;
    repeat case_match; simplify_eq; simpl;
    eexists _, _; (split; [reflexivity|]); simpl;
    (split; [|done]);
    first [ by rewrite app_nil_r
          | reflexivity
          | by rewrite <- ?app_assoc ].
Qed.

Lemma prose_children children :
  Forall (fun t => forall s, prose t = true ->
            JupyterCodeTranslator.in_code_block (base s) = false ->
            exists s' added,
              translate_tree t s = Return tt s' /\
              markdown_lines s' = markdown_lines s ++ added /\
              cells_of s' = cells_of s /\
              JupyterCodeTranslator.in_code_block (base s') = false)
         children ->
  forallb prose children = true ->
  forall s,
    JupyterCodeTranslator.in_code_block (base s) = false ->
    exists s' added,
      translate_events (flat_map walkabout children) s = Return tt s' /\
      markdown_lines s' = markdown_lines s ++ added /\
      cells_of s' = cells_of s /\
      JupyterCodeTranslator.in_code_block (base s') = false.
Proof.
  induction 1 as [|t children Ht _ IH]; intros Hp s Hcode.
  - exists s, []. split; [done|]. by rewrite app_nil_r.
  - simpl in Hp. apply andb_true_iff in Hp as [Hpt Hpc].
    destruct (Ht s Hpt Hcode) as (s1 & added1 & Hrun1 & Hl1 & Hc1 & Hb1).
    destruct (IH Hpc s1 Hb1) as (s2 & added2 & Hrun2 & Hl2 & Hc2 & Hb2).
    exists s2, (added1 ++ added2). split.
    + unfold translate_tree, translate_events in *. simpl.
      by rewrite run_app, Hrun1.
    + rewrite Hl2, Hl1, Hc2, Hc1. by rewrite <- app_assoc.
Qed.

Lemma prose_tree t : forall s,
  prose t = true ->
  JupyterCodeTranslator.in_code_block (base s) = false ->
  exists s' added,
    translate_tree t s = Return tt s' /\
    markdown_lines s' = markdown_lines s ++ added /\
    cells_of s' = cells_of s /\
    JupyterCodeTranslator.in_code_block (base s') = false.
Proof.
  induction t as [n children IH] using Doctree_forall_ind.
  intros s Hp Hcode. simpl in Hp. apply andb_true_iff in Hp as [Hn Hc].
  destruct (prose_event (Visit n) s Hn Hcode)
    as (s1 & added1 & Hrun1 & Hl1 & Hc1 & Hb1).
  destruct (prose_children children IH Hc s1 Hb1)
    as (s2 & added2 & Hrun2 & Hl2 & Hc2 & Hb2).
  destruct (prose_event (Depart n) s2 Hn Hb2)
    as (s3 & added3 & Hrun3 & Hl3 & Hc3 & Hb3).
  exists s3, (added1 ++ added2 ++ added3). split.
  - unfold translate_tree, translate_events, handle in *.
    change (walkabout (Tree n children))
      with ([Visit n] ++ flat_map walkabout children ++ [Depart n]).
    rewrite run_app.
    change (run add_markdown_cell [Visit n] s)
      with (bind (dispatch add_markdown_cell (Visit n)) (fun _ => ret tt) s).
    unfold bind at 1. rewrite Hrun1. unfold ret at 1.
    rewrite run_app, Hrun2.
    change (run add_markdown_cell [Depart n] s2)
      with (bind (dispatch add_markdown_cell (Depart n)) (fun _ => ret tt) s2).
    unfold bind at 1. by rewrite Hrun3.
  - rewrite Hl3, Hl2, Hl1, Hc3, Hc2, Hc1. by rewrite <- !app_assoc.
Qed.

Lemma prose_trees children s :
  forallb prose children = true ->
  JupyterCodeTranslator.in_code_block (base s) = false ->
  exists s' added,
    translate_events (flat_map walkabout children) s = Return tt s' /\
    markdown_lines s' = markdown_lines s ++ added /\
    cells_of s' = cells_of s /\
    JupyterCodeTranslator.in_code_block (base s') = false.
Proof.
  intros Hp Hcode. apply prose_children; [|done|done].
  apply Forall_forall. intros t _ s1. apply prose_tree.
Qed.

(** X11. Outside a code block, a subtree of prose nodes only (text,
    images, math, paragraphs, emphasis, references, targets, definition
    and field lists, citations, sections and topics without titles, and
    nodes without a method) is always translated to the end: no method
    raises, the buffer only grows at its end, and the cell stream is left
    as it was. The same holds for a run of such subtrees. *)
Theorem prose_only_appends t s :
  prose t = true ->
  JupyterCodeTranslator.in_code_block (base s) = false ->
  (exists s' added,
     translate_tree t s = Return tt s' /\
     markdown_lines s' = markdown_lines s ++ added /\
     cells_of s' = cells_of s /\
     JupyterCodeTranslator.in_code_block (base s') = false) /\
  (forall siblings,
     forallb prose siblings = true ->
     exists s' added,
       translate_events (flat_map walkabout (t :: siblings)) s
         = Return tt s' /\
       markdown_lines s' = markdown_lines s ++ added /\
       cells_of s' = cells_of s /\
       JupyterCodeTranslator.in_code_block (base s') = false).
Proof.
  intros Hp Hcode. split; [by apply prose_tree|].
  intros siblings Hs. apply prose_trees; [|done].
  simpl. by rewrite Hp.
Qed.

End Subtrees.

Lemma subtrees_restore_nesting_witness :
  let s := Sample.state [] in
  let trees := [Nested.tree; Sample.para "after"] in
  nesting (final_state (H := Sample.utils) (flat_map walkabout trees) s)
  = nesting s.
Proof.
  intros s trees.
  apply (subtrees_restore_nesting (H := Sample.utils) trees s).
  vm_compute. reflexivity.
Defined.

Lemma prose_only_appends_witness :
  exists s' added,
    translate_tree (H := Sample.utils) (Sample.para "Some prose")
      (Sample.state ["Hello"]) = Return tt s' /\
    markdown_lines s' = ["Hello"] ++ added /\
    cells_of s' = [] /\
    JupyterCodeTranslator.in_code_block (base s') = false.
Proof.
  refine (proj1 (prose_only_appends (H := Sample.utils) (Sample.para "Some prose")
           (Sample.state ["Hello"]) _ _)); reflexivity.
Defined.

(** * Links *)

Section Links.
Import Py.

Lemma span_not_app c a r :
  contains c a = false ->
  span_not c (a +:+ String c r) = (a, String c r).
Proof.
  induction a as [|d a IH]; simpl.
  - intros _. rewrite ?str_app_nil_l. simpl. by rewrite Ascii.eqb_refl.
  - destruct (Ascii.eqb d c) eqn:Hd; simpl; [done|]. intros Ha.
    rewrite ?str_app_cons. simpl. rewrite ?Hd. by rewrite IH.
Qed.

End Links.

(** X12. On a URI without a dot that has a fragment, the extension goes
    right before the first hash and the fragment is kept; but when the
    fragment holds a line feed, the line feed and all after it are
    dropped. *)
Theorem add_extension_before_the_fragment page fragment ext :
  Py.contains "."%char page = false ->
  Py.contains "#"%char page = false ->
  Py.contains "."%char fragment = false ->
  Py.contains Py.LF fragment = false ->
  add_extension_to_inline_link (page +:+ "#" +:+ fragment) ext
    = page +:+ ext +:+ "#" +:+ fragment /\
  (forall rest,
     Py.contains "."%char rest = false ->
     add_extension_to_inline_link
       (page +:+ "#" +:+ fragment +:+ Py.nl +:+ rest) ext
     = page +:+ ext +:+ "#" +:+ fragment).
Proof.
  intros Hdot Hhash Hfdot Hflf.
  unfold add_extension_to_inline_link, split_uri_id. split.
  - rewrite contains_app, Hdot. rewrite str_app_cons, str_app_nil_l.
    simpl. rewrite Hfdot. simpl.
    rewrite span_not_app by done. by rewrite span_not_absent.
  - intros rest Hrest.
    rewrite contains_app, Hdot. rewrite str_app_cons, str_app_nil_l.
    simpl. rewrite contains_app, Hfdot. unfold Py.nl.
    rewrite str_app_cons, str_app_nil_l. simpl. rewrite Hrest. simpl.
    rewrite span_not_app by done.
    by rewrite span_not_app.
Qed.

Lemma add_extension_before_the_fragment_witness :
  add_extension_to_inline_link "page#sec" ".ipynb" = "page.ipynb#sec" /\
  (forall rest,
     Py.contains "."%char rest = false ->
     add_extension_to_inline_link ("page#sec" +:+ Py.nl +:+ rest) ".ipynb"
     = "page.ipynb#sec").
Proof.
  apply (add_extension_before_the_fragment "page" "sec" ".ipynb");
    reflexivity.
Defined.

Section References.
Context `{Utils}.
Import JupyterCodeTranslator.

(** Outside a code block the text nodes go to the markdown buffer. *)
Lemma run_texts_in_markdown f texts : forall s,
  in_code_block (base s) = false ->
  run f (flat_map walkabout (text_nodes texts)) s =
  Return tt (set_markdown_lines (markdown_lines s ++ texts) s).
Proof.
  induction texts as [|t texts IH]; intros s Hcode.
  - simpl. unfold ret. f_equal. destruct s.
    unfold set_markdown_lines. simpl. by rewrite app_nil_r.
  - simpl. exec. rewrite Hcode. simpl. rewrite IH by done. f_equal.
    unfold set_markdown_lines. simpl. by rewrite <- app_assoc.
Qed.

(** X13. Outside a topic, a reference with a text label is always
    translated to the end, as [[label](target)]: the target is the URI (with
    [.ipynb] added when the link is internal), else [#] and the id; a
    reference with neither is reported as an error and gets an empty
    target. Nothing else is reported and no cell is made. *)
Theorem reference_outside_a_topic refuri internal refid label s :
  in_topic s = false ->
  in_code_block (base s) = false ->
  exists s',
    translate_tree
      (Tree (reference refuri internal refid) (text_nodes label)) s
      = Return tt s' /\
    markdown_lines s' =
      markdown_lines s ++ ["["] ++ label ++
      ["](" +:+ link_target refuri internal refid +:+ ")"] /\
    reporter (base s') =
      reporter (base s) ++
      match refuri, refid with
      | None, None => [Error InvalidReference]
      | _, _ => []
      end /\
    cells_of s' = cells_of s /\
    in_reference s' = false.
Proof.
  intros Ht Hcode. unfold translate_tree, translate_events.
  change (walkabout (Tree (reference refuri internal refid)
                       (text_nodes label)))
    with ([Visit (reference refuri internal refid)] ++
          flat_map walkabout (text_nodes label) ++
          [Depart (reference refuri internal refid)]).
  rewrite run_app. simpl run at 2. exec.
  rewrite run_app, run_texts_in_markdown by done.
  exec. rewrite Ht. simpl.
  destruct refuri as [refuri|]; [destruct internal as [[|]|]|
    destruct refid as [refid|]]; simpl;
    eexists; (split; [reflexivity|]); simpl;
    rewrite <- ?app_assoc, ?app_nil_r; done.
Qed.

End References.

Lemma reference_outside_a_topic_witness :
  exists s',
    translate_tree (H := Sample.utils)
      (Tree (reference (Some "page#sec") (Some true) None)
         (text_nodes ["there"]))
      (Sample.state ["See "])
      = Return tt s' /\
    markdown_lines s' =
      ["See "] ++ ["["] ++ ["there"] ++ ["](page.ipynb#sec)"] /\
    JupyterCodeTranslator.reporter (base s') = [] ++ [] /\
    cells_of s' = [] /\
    in_reference s' = false.
Proof.
  apply (reference_outside_a_topic (H := Sample.utils)
           (Some "page#sec") (Some true) None ["there"]
           (Sample.state ["See "])); reflexivity.
Defined.

(** * The end of the document and the constructor *)

Section DocumentEnd.
Context `{Utils}.
Import JupyterCodeTranslator.

(** X14. [depart_document] of the superclass raises in one case only:
    a kernel table is configured and has no entry for the language that the
    document ends with (its own, or the default one when none is set); the
    exception is then [KeyError]. Missing headers or a missing [kernelspec]
    entry are reported as warnings instead. *)
Theorem depart_document_raises_key_error c e :
  JupyterCodeTranslator.depart_document c = Raised e <->
  e = KeyError /\
  exists kernels,
    jupyter_kernels c = Some kernels /\
    final_lang c ≫= (fun l => kernels !! l) = None.
Proof.
  unfold final_lang. split.
  - intros Hrun. exec_in Hrun.
    destruct (truthy (lang c)) eqn:Ht; simpl in Hrun;
      repeat case_match; simplify_eq; simpl in *; simplify_eq;
      (split; [done|]); eexists; (split; [eassumption|]); done.
  - intros (-> & kernels & Hk & Hl). exec.
    destruct (truthy (lang c)) eqn:Ht; simpl;
      destruct (jupyter_headers c) as [headers|]; simpl;
      repeat case_match; simplify_eq; simpl in *; simplify_eq;
      try done; congruence.
Qed.

End DocumentEnd.

Section Constructor.
Import JupyterCodeTranslator.





End Constructor.


(** * Citations *)

Section Citations.
Context `{Utils}.

Lemma drop_last_snoc s c : Py.drop_last (s +:+ String c EmptyString) = s.
Proof.
  induction s as [|d s IH]; [done|].
  rewrite str_app_cons. simpl. rewrite IH.
  destruct s; [by rewrite str_app_nil_l|by rewrite str_app_cons].
Qed.

Lemma citation_loop acc ids :
  foldl (fun id_text id_ => id_text +:+ id_ +:+ " ") acc ids =
  acc +:+ Py.join EmptyString ((fun id_ => id_ +:+ " ") <$> ids).
Proof.
  revert acc. induction ids as [|i ids IH]; intros acc; simpl foldl.
  - by rewrite str_app_nil_r.
  - rewrite IH, fmap_cons, join_cons, !str_app_assoc.
    destruct ids; simpl; by rewrite ?str_app_nil_r, ?str_app_nil_l.
Qed.

(** The anchor of a citation names its ids with one space between
    them. *)
Lemma citation_id_text_join ids : citation_id_text ids = Py.join " " ids.
Proof.
  unfold citation_id_text. induction ids as [|i ids IH] using rev_ind.
  - done.
  - rewrite foldl_snoc, citation_loop, str_app_nil_l.
    rewrite <- str_app_assoc, drop_last_snoc.
    clear IH. induction ids as [|j ids IH]; [by rewrite str_app_nil_l|].
    rewrite fmap_cons, join_cons. simpl app. rewrite (join_cons " " j).
    destruct ids as [|k ids].
    + simpl. by rewrite !str_app_nil_r, <- str_app_assoc.
    + rewrite str_app_nil_l, !str_app_assoc. f_equal.
      rewrite <- IH. simpl fmap.
      by rewrite str_app_cons, str_app_nil_l.
Qed.

(** X17. [visit_citation] on a node with ids appends one anchor whose id
    is the ids joined by single spaces, without a space at the end; with
    an empty list of ids the id is empty. The buffer before it and the
    cells are kept. *)
Theorem citation_anchor ids s :
  handle (Visit (citation (Some ids))) s =
  Return tt
    (set_markdown_lines
       (markdown_lines s ++
        ["<a id='" +:+ Py.join " " ids +:+ "'></a>" +:+ Py.nl])
       (set_in_citation true s)).
Proof.
  unfold handle. exec. by rewrite citation_id_text_join.
Qed.

End Citations.

(** * Code blocks, once more *)

Section CodeBlockRuns.
Context `{Utils}.
Import JupyterCodeTranslator.

(** The traversal of a literal block, up to its departure. *)
Lemma literal_block_run classes language texts s c1 s2 :
  JupyterCodeTranslator.visit_literal_block classes language (base s)
    = Return tt c1 ->
  in_code_block c1 = true ->
  add_markdown_cell (set_base c1 s) = Return tt s2 ->
  in_code_block (base s2) = true ->
  translate_tree (Tree (literal_block classes language) (text_nodes texts)) s
  = match JupyterCodeTranslator.depart_literal_block
            (set_code_lines (code_lines (base s2) ++ texts) (base s2)) with
    | Return _ c3 => Return tt (set_base c3 s2)
    | Raised e => Raised e
    end.
Proof.
  intros Hvisit Hcode Hflush Hcode2.
  unfold translate_tree, translate_events. simpl walkabout.
  simpl run. unfold bind at 1.
  unfold JupyterTranslator.visit_literal_block.
  unfold bind at 1. unfold super at 1. rewrite Hvisit.
  unfold bind at 1, gets at 1.
  change (in_code_block (base (set_base c1 s))) with (in_code_block c1).
  rewrite Hcode. cbv iota. rewrite Hflush.
  rewrite run_app, run_texts_in_code_block by done.
  simpl run. unfold bind at 1. unfold super at 1.
  rewrite base_set_base.
  by destruct (JupyterCodeTranslator.depart_literal_block _) as [[] c3|].
Qed.

Lemma all_space_join_fragments lines :
  all_space (Py.join EmptyString lines) = forallb all_space lines.
Proof.
  induction lines as [|l lines IH]; [done|].
  rewrite join_cons, all_space_app. simpl. f_equal.
  destruct lines; [done|]. by rewrite str_app_nil_l.
Qed.

(** A literal block met while prose is pending: the flush at its visit
    leaves the markdown buffer empty, and the block is translated to its
    end. *)
Lemma literal_block_empties_buffer classes language texts s :
  flushable s = true ->
  exists s',
    translate_tree (Tree (literal_block classes language) (text_nodes texts)) s
      = Return tt s' /\
    markdown_lines s' = [].
Proof.
  intros Hf.
  destruct (visit_literal_block_returns classes language (base s))
    as (c1 & Hvisit & Hcode & Hlines & [t Ht] & Hout).
  rewrite (literal_block_run classes language texts s c1
             (flushed (set_base c1 s))); try done.
  2: { by apply add_markdown_cell_flushable. }
  exec. rewrite Ht. simpl.
  destruct t; simpl; try (by eexists).
  unfold cells_of. simpl. rewrite last_snoc. simpl. by eexists.
Qed.

(** X18. A list item that ends in a code block, after any prose, cannot
    be closed: the flush at the visit of the block empties the markdown
    buffer, so [depart_list_item] reads the last fragment of an empty buffer
    and raises [IndexError]; the traversal ends there. *)
Theorem code_block_at_the_end_of_a_list_item
    bullet children classes language texts events s :
  last (bullets s) = Some bullet ->
  all_space bullet = false ->
  in_code_block (base s) = false ->
  forallb prose children = true ->
  translate_events
    (walkabout
       (Tree list_item
          (children ++
           [Tree (literal_block classes language) (text_nodes texts)])) ++
     events) s
  = Raised IndexError.
Proof.
  intros Hb Hspace Hcode Hprose. unfold translate_events.
  rewrite run_app.
  change (walkabout (Tree list_item
            (children ++
             [Tree (literal_block classes language) (text_nodes texts)])))
    with ([Visit list_item] ++
          flat_map walkabout
            (children ++
             [Tree (literal_block classes language) (text_nodes texts)]) ++
          [Depart list_item]).
  rewrite flat_map_app, <- app_assoc, !run_app.
  set (s1 := set_list_item_starts
               (list_item_starts s ++
                [length (markdown_lines s ++ [bullet +:+ " "])])
               (set_markdown_lines (markdown_lines s ++ [bullet +:+ " "])
                  s)).
  assert (Hvisit : run add_markdown_cell [Visit list_item] s = Return tt s1).
  { exec. by rewrite Hb. }
  rewrite Hvisit.
  destruct (prose_trees children s1 Hprose Hcode)
    as (s2 & added & Hrun2 & Hl2 & _ & Hcode2).
  unfold translate_events in Hrun2. rewrite run_app, Hrun2.
  assert (Hf : flushable s2 = true).
  { rewrite flushable_spec, Hl2, all_space_join_fragments. simpl.
    rewrite !forallb_app. simpl. rewrite all_space_app, Hspace. simpl.
    by rewrite andb_false_r. }
  destruct (literal_block_empties_buffer classes language texts s2 Hf)
    as (s3 & Hrun3 & Hl3).
  unfold translate_tree, translate_events in Hrun3.
  change (flat_map walkabout
            [Tree (literal_block classes language) (text_nodes texts)])
    with (walkabout
            (Tree (literal_block classes language) (text_nodes texts)) ++ []).
  rewrite app_nil_r, run_app, Hrun3.
  exec.
  destruct (last (list_item_starts s3)); simpl; [|done].
  destruct (last (indents s3)); simpl; [|done].
  by rewrite Hl3.
Qed.

(** X19. A block in the language of the document whose classes select a
    code cell: the prose pending before it is flushed to a markdown cell
    first, then one code cell without output is appended, whose body is
    the text of the block without the blank lines at its end. Code text
    left in the code buffer from before is not part of it. *)
Theorem native_block_becomes_a_code_cell s classes language texts :
  resolved_language language s = translate (lang (base s)) ->
  GetGeneratorFromClasses classes = CODE ->
  exists s',
    translate_tree (Tree (literal_block classes language) (text_nodes texts)) s
      = Return tt s' /\
    cells_of s' =
      cells_of s ++
      (if flushable s then [new_markdown_cell (pending_text s)] else []) ++
      [new_code_cell
         (strip_blank_lines_in_end_of_block (Py.join EmptyString texts))] /\
    markdown_lines s' = (if flushable s then [] else markdown_lines s) /\
    in_code_block (base s') = false /\
    reporter (base s') = reporter (base s).
Proof.
  intros Hnative Hcode.
  assert (Hf : foreign language s = false).
  { unfold foreign. by apply bool_decide_eq_false_2; intros ?. }
  pose proof (visit_native_block classes language s Hf) as Hvisit.
  set (c1 := set_code_lines _ _) in Hvisit.
  destruct (flushable s) eqn:Hfl.
  - rewrite (literal_block_run classes language texts s c1
               (flushed (set_base c1 s))); try done.
    2: { by apply add_markdown_cell_flushable. }
    exec. rewrite Hcode. simpl. eexists. split; [reflexivity|].
    unfold cells_of. simpl. by rewrite <- app_assoc.
  - rewrite (literal_block_run classes language texts s c1
               (set_base c1 s)); try done.
    2: { by apply add_markdown_cell_blank. }
    exec. rewrite Hcode. simpl. eexists. split; [reflexivity|].
    unfold cells_of. simpl. done.
Qed.

(** X20. An output block in the language of the document. Right after a
    code cell without output, and with no prose pending, it becomes the
    output of that cell and nothing is reported. With prose pending, the
    flush puts a markdown cell between the two: the output is dropped and
    a warning is reported. *)
Theorem output_block_after_a_code_cell s classes language texts cs src :
  resolved_language language s = translate (lang (base s)) ->
  GetGeneratorFromClasses classes = CODE_OUTPUT ->
  cells_of s = cs ++ [code_cell src []] ->
  exists s',
    translate_tree (Tree (literal_block classes language) (text_nodes texts)) s
      = Return tt s' /\
    if flushable s
    then cells_of s' = cells_of s ++ [new_markdown_cell (pending_text s)] /\
         reporter (base s') =
           reporter (base s) ++ [Warning (OutputAfterNonCodeCell "markdown")]
    else cells_of s' =
           cs ++ [code_cell src
                    [new_output
                       (strip_blank_lines_in_end_of_block
                          (Py.join EmptyString texts))]] /\
         reporter (base s') = reporter (base s).
Proof.
  intros Hnative Hout Hcells.
  assert (Hf : foreign language s = false).
  { unfold foreign. by apply bool_decide_eq_false_2; intros ?. }
  pose proof (visit_native_block classes language s Hf) as Hvisit.
  set (c1 := set_code_lines _ _) in Hvisit.
  unfold cells_of in Hcells.
  destruct (flushable s) eqn:Hfl.
  - rewrite (literal_block_run classes language texts s c1
               (flushed (set_base c1 s))); try done.
    2: { by apply add_markdown_cell_flushable. }
    exec. rewrite Hout. simpl. unfold cells_of. simpl.
    rewrite last_snoc. simpl. eexists. split; [reflexivity|]. done.
  - rewrite (literal_block_run classes language texts s c1
               (set_base c1 s)); try done.
    2: { by apply add_markdown_cell_blank. }
    exec. rewrite Hout. simpl. rewrite Hcells, last_snoc. simpl.
    eexists. split; [reflexivity|]. unfold cells_of. simpl.
    by rewrite init_snoc.
Qed.

End CodeBlockRuns.

Lemma code_block_at_the_end_of_a_list_item_witness :
  translate_events (H := Sample.utils)
    (walkabout
       (Tree list_item
          ([Sample.para "install it:"] ++
           [Tree (literal_block [] None) (text_nodes ["pip install x"])])) ++
     [Depart bullet_list])
    (Sample.topic_state [] "-")
  = Raised IndexError.
Proof.
  apply (code_block_at_the_end_of_a_list_item (H := Sample.utils) "-"
           [Sample.para "install it:"] [] None ["pip install x"]
           [Depart bullet_list] (Sample.topic_state [] "-")); reflexivity.
Defined.

Lemma native_block_becomes_a_code_cell_witness :
  exists s',
    translate_tree (H := Sample.utils)
      (Tree (literal_block [] None) (text_nodes ["x = 1" +:+ Py.nl]))
      (Sample.state ["Hello"])
      = Return tt s' /\
    cells_of s' =
      [] ++ [new_markdown_cell "Hello"] ++ [new_code_cell "x = 1"] /\
    markdown_lines s' = [] /\
    JupyterCodeTranslator.in_code_block (base s') = false /\
    JupyterCodeTranslator.reporter (base s') = [].
Proof.
  apply (native_block_becomes_a_code_cell (H := Sample.utils)
           (Sample.state ["Hello"]) [] None ["x = 1" +:+ Py.nl]);
    reflexivity.
Defined.

Lemma output_block_after_a_code_cell_witness :
  let s :=
    set_base
      (JupyterCodeTranslator.set_cells [new_code_cell "x = 1"]
         (base (Sample.state [])))
      (Sample.state []) in
  exists s',
    translate_tree (H := Sample.utils)
      (Tree (literal_block ["output"] None) (text_nodes ["1"])) s
      = Return tt s' /\
    cells_of s' = [] ++ [code_cell "x = 1" [new_output "1"]] /\
    JupyterCodeTranslator.reporter (base s') = [].
Proof.
  intros s.
  apply (output_block_after_a_code_cell (H := Sample.utils) s
           ["output"] None ["1"] [] "x = 1"); reflexivity.
Defined.

(** * List items that are not flushed *)

Section QuietItems.
Context `{Utils}.

(** A method that returns with a raising flush in the place of
    [self.add_markdown_cell] has not called it: the translator's own
    method returns the same, and unless it closes a list item it has only
    appended to the buffer. *)
Lemma quiet_event x e s s' :
  dispatch (raise x) e s = Return tt s' ->
  handle e s = Return tt s' /\
  (e <> Depart list_item ->
   exists added, markdown_lines s' = markdown_lines s ++ added).
Proof.
  intros Hrun. unfold handle.
  destruct e as [n|n]; destruct n; exec_in Hrun; exec;
    repeat case_match; simplify_eq; simpl in *; try done;
    try congruence.
  all: split; [reflexivity|]; intros He; try done.
  all: first [ by exists []; rewrite app_nil_r
             | by eexists
             | by eexists; rewrite <- ?app_assoc ].
Qed.

Lemma run_step f e events s s' :
  run f (e :: events) s = Return tt s' ->
  exists s1, dispatch f e s = Return tt s1 /\ run f events s1 = Return tt s'.
Proof.
  intros Hrun.
  change (run f (e :: events) s)
    with (bind (dispatch f e) (fun _ => run f events) s) in Hrun.
  unfold bind in Hrun.
  destruct (dispatch f e s) as [[] s1|]; [|done]. eauto.
Qed.

Lemma run_last f events e s s' :
  run f (events ++ [e]) s = Return tt s' ->
  exists s2, run f events s = Return tt s2 /\ dispatch f e s2 = Return tt s'.
Proof.
  rewrite run_app.
  destruct (run f events s) as [[] s2|]; [|done].
  intros Hrun. apply run_step in Hrun as (s3 & He & Hnil).
  simpl in Hnil. unfold ret in Hnil. simplify_eq. eauto.
Qed.

(** A run that reaches no flush is a run of the translator. *)
Lemma quiet_run x events : forall s s',
  run (raise x) events s = Return tt s' ->
  translate_events events s = Return tt s'.
Proof.
  unfold translate_events.
  induction events as [|e events IH]; intros s s' Hrun; [done|].
  apply run_step in Hrun as (s1 & He & Hrun).
  apply quiet_event in He as [He _]. unfold handle in He.
  change (run add_markdown_cell (e :: events) s)
    with (bind (dispatch add_markdown_cell e)
            (fun _ => run add_markdown_cell events) s).
  unfold bind. rewrite He. by apply IH.
Qed.

Lemma last_char_snoc s c :
  Py.last_char (s +:+ String c EmptyString) = Some c.
Proof.
  induction s as [|d s IH]; [done|].
  rewrite str_app_cons. simpl. rewrite IH.
  destruct s; [by rewrite str_app_nil_l|by rewrite str_app_cons].
Qed.

(** [depart_list_item] on an item without content after its mark, whose
    mark is the end of the buffer. *)
Lemma depart_list_item_empty s s' frag c :
  last (list_item_starts s) = Some (length (markdown_lines s)) ->
  last (markdown_lines s) = Some frag ->
  Py.last_char frag = Some c -> c <> Py.LF ->
  depart_list_item s = Return tt s' ->
  markdown_lines s' = markdown_lines s.
Proof.
  intros Hstart Hlast Hc Hne Hrun. exec_in Hrun.
  rewrite Hstart in Hrun. simpl in Hrun.
  destruct (last (indents s)) as [w|]; simpl in Hrun; [|done].
  rewrite Hlast in Hrun. simpl in Hrun. rewrite Hc in Hrun. simpl in Hrun.
  destruct (Ascii.eqb_spec c Py.LF) as [->|_]; [done|].
  simpl in Hrun. simplify_eq. simpl.
  rewrite reindent_from, take_ge, drop_ge by lia. simpl.
  by rewrite app_nil_r.
Qed.

(** A list item from its visit to its departure, when the buffer at the
    departure still holds all that it held after the visit. *)
Lemma list_item_steps s s1 s2 s' content :
  handle (Visit list_item) s = Return tt s1 ->
  nesting s2 = nesting s1 ->
  markdown_lines s2 = markdown_lines s1 ++ content ->
  handle (Depart list_item) s2 = Return tt s' ->
  exists bullet w,
    last (bullets s) = Some bullet /\
    last (indents s) = Some w /\
    markdown_lines s1 = markdown_lines s ++ [bullet +:+ " "] /\
    (content = [] /\ markdown_lines s' = markdown_lines s1 \/
     exists own frag,
       content = own ++ [frag] /\
       markdown_lines s' =
         markdown_lines s1 ++
         reindented (Py.repeat indent_char (Z.of_nat w)) own frag).
Proof.
  unfold handle, nesting. intros Hv Hn Hl Hd.
  exec_in Hv. destruct (last (bullets s)) as [bullet|] eqn:Hb;
    simpl in Hv; [|done].
  simplify_eq. simpl in *. simplify_eq.
  match goal with
  | Hs : list_item_starts s2 = _, Hi : indents s2 = _ |- _ =>
      rename Hs into Hstarts; rename Hi into Hind
  end.
  assert (Hw : exists w, last (indents s) = Some w).
  { simpl in Hd. exec_in Hd. rewrite Hstarts, last_snoc in Hd.
    simpl in Hd. rewrite Hind in Hd.
    destruct (last (indents s)) as [w|]; [eauto|done]. }
  destruct Hw as [w Hw]. exists bullet, w.
  split; [done|]. split; [done|]. split; [done|].
  destruct (decide (content = [])) as [->|Hne].
  - left. split; [done|]. rewrite app_nil_r in Hl. rewrite <- Hl.
    simpl in Hd.
    eapply (depart_list_item_empty s2 s' (bullet +:+ " ") " "%char);
      [| |apply last_char_snoc|done|exact Hd].
    + rewrite Hstarts, last_snoc. by rewrite Hl.
    + by rewrite Hl, last_snoc.
  - right. destruct (last content) as [frag|] eqn:Hlast;
      [|by apply last_None in Hlast].
    apply last_Some in Hlast as [own ->]. exists own, frag.
    split; [done|].
    assert (Hc : exists c, Py.last_char frag = Some c).
    { simpl in Hd. exec_in Hd. rewrite Hstarts, last_snoc in Hd.
      simpl in Hd. rewrite Hind, Hw in Hd. simpl in Hd.
      rewrite Hl, app_assoc, last_snoc in Hd. simpl in Hd.
      destruct (Py.last_char frag) as [c|]; [eauto|done]. }
    destruct Hc as [c Hc].
    apply last_Some in Hw as [ws Hws].
    simpl in Hd.
    rewrite (depart_list_item_content s2 (list_item_starts s) ws w
               (markdown_lines s ++ [bullet +:+ " "]) own frag c)
      in Hd; [by simplify_eq|done|congruence|done|done].
Qed.

Lemma quiet_children x children :
  Forall (fun t => forall s s',
            run (raise x) (walkabout t) s = Return tt s' ->
            exists added, markdown_lines s' = markdown_lines s ++ added)
         children ->
  forall s s',
    run (raise x) (flat_map walkabout children) s = Return tt s' ->
    exists added, markdown_lines s' = markdown_lines s ++ added.
Proof.
  induction 1 as [|t children Ht _ IH]; intros s s' Hrun.
  - simpl in Hrun. unfold ret in Hrun. simplify_eq.
    exists []. by rewrite app_nil_r.
  - simpl in Hrun. rewrite run_app in Hrun.
    destruct (run (raise x) (walkabout t) s) as [[] s1|] eqn:Hhead; [|done].
    destruct (Ht _ _ Hhead) as [added1 Hl1].
    destruct (IH _ _ Hrun) as [added2 Hl2].
    exists (added1 ++ added2). by rewrite Hl2, Hl1, app_assoc.
Qed.

(** A subtree in whose traversal no flush is reached leaves the buffer
    as it found it, with fragments added at its end. *)
Lemma quiet_tree x t : forall s s',
  run (raise x) (walkabout t) s = Return tt s' ->
  exists added, markdown_lines s' = markdown_lines s ++ added.
Proof.
  induction t as [n children IH] using Doctree_forall_ind.
  intros s s' Hrun.
  change (walkabout (Tree n children))
    with (Visit n :: flat_map walkabout children ++ [Depart n]) in Hrun.
  apply run_step in Hrun as (s1 & Hv & Hrun).
  apply run_last in Hrun as (s2 & Hc & Hd).
  destruct (quiet_children x children IH _ _ Hc) as [content Hl2].
  apply quiet_event in Hv as [Hv Hl1].
  destruct Hl1 as [added1 Hl1]; [done|].
  apply quiet_event in Hd as [Hd Hl3].
  assert (Hn : n = list_item \/ Depart n <> Depart list_item).
  { destruct n; (by left) || (by right). }
  destruct Hn as [->|Hn].
  - apply quiet_run, trees_nesting in Hc.
    destruct (list_item_steps s s1 s2 s' content Hv Hc Hl2 Hd)
      as (bullet & w & _ & _ & _ & [[-> ->]|(own & frag & -> & ->)]).
    + eexists. by rewrite Hl1.
    + eexists. by rewrite Hl1, <- app_assoc.
  - destruct (Hl3 Hn) as [added3 ->].
    eexists. by rewrite Hl2, Hl1, <- !app_assoc.
Qed.

End QuietItems.

(** C4, amended. When a list item closes and no flush was reached since
    its visit, the buffer is the buffer from before the item (the content
    of siblings and ancestors), the mark of the item, and the content
    appended since the start mark was recorded; closing the item keeps the
    first two as they are, and in the content every line feed, but one
    that ends the last fragment, gets the indent of the current nesting
    level after it: as many spaces as the marker is long, and one more,
    so two for the marker [-]. In the two-level list, closing the inner
    item makes of its content [B], line feed, two spaces, [C] and leaves
    the fragments of [A] alone; closing the outer item then indents it
    once more, and the flushed cell has four spaces before [C]. *)
Theorem list_item_reindents_own_content `{Utils} :
  (forall children s s',
     runs_without_flush (walkabout (Tree list_item children)) s s' ->
     exists bullet w s2 content,
       last (bullets s) = Some bullet /\
       last (indents s) = Some w /\
       translate_events (Visit list_item :: flat_map walkabout children) s
         = Return tt s2 /\
       list_item_starts s2 =
         list_item_starts s ++
         [length (markdown_lines s ++ [bullet +:+ " "])] /\
       markdown_lines s2 = markdown_lines s ++ [bullet +:+ " "] ++ content /\
       translate_tree (Tree list_item children) s = Return tt s' /\
       (content = [] /\
        markdown_lines s' = markdown_lines s ++ [bullet +:+ " "] \/
        exists own frag,
          content = own ++ [frag] /\
          markdown_lines s' =
            markdown_lines s ++ [bullet +:+ " "] ++
            reindented (Py.repeat indent_char (Z.of_nat w)) own frag)) /\
  (forall ind a b,
     Py.replace Py.LF (Py.nl +:+ ind) (a +:+ Py.nl +:+ b) =
     Py.replace Py.LF (Py.nl +:+ ind) a +:+ Py.nl +:+ ind
     +:+ Py.replace Py.LF (Py.nl +:+ ind) b) /\
  (forall s, exists s',
     visit_bullet_list s = Return tt s' /\ indents s' = indents s ++ [2]) /\
  (exists s',
     depart_list_item Nested.at_inner_close = Return tt s' /\
     markdown_lines s' =
       ["- "; "A"; sep_lines; "- "; "B" +:+ Py.nl +:+ "  C"; "  "; Py.nl]) /\
  (exists s',
     translate_tree (H := Sample.utils)
       (Tree document [Nested.tree]) (Sample.state []) = Return tt s' /\
     cells_of s' =
       [markdown_cell
          ("- A  " +:+ Py.nl +:+ "  - B" +:+ Py.nl +:+ "    C  ")]).
Proof.
  split; [|split; [|split; [|split]]].
  - intros children s s' Hquiet.
    pose proof (Hquiet IndexError) as Hrun.
    pose proof (quiet_run _ _ _ _ Hrun) as Hreal.
    change (walkabout (Tree list_item children))
      with ((Visit list_item :: flat_map walkabout children) ++
            [Depart list_item]) in Hrun.
    apply run_last in Hrun as (s2 & Hopen & Hd).
    pose proof (quiet_run _ _ _ _ Hopen) as Hopen'.
    apply run_step in Hopen as (s1 & Hv & Hc).
    assert (Hcontent : exists content,
              markdown_lines s2 = markdown_lines s1 ++ content).
    { eapply (quiet_children IndexError children); [|exact Hc].
      apply Forall_forall. intros t _. apply quiet_tree. }
    destruct Hcontent as [content Hl2].
    apply quiet_event in Hv as [Hv _]. apply quiet_event in Hd as [Hd _].
    pose proof (trees_nesting _ _ _ (quiet_run _ _ _ _ Hc)) as Hn.
    destruct (list_item_steps s s1 s2 s' content Hv Hn Hl2 Hd)
      as (bullet & w & Hb & Hw & Hl1 & Hclose).
    exists bullet, w, s2, content.
    split; [done|]. split; [done|]. split; [done|]. split.
    { unfold nesting in Hn. simplify_eq.
      match goal with Hs : list_item_starts s2 = _ |- _ => rewrite Hs end.
      unfold handle in Hv. exec_in Hv. rewrite Hb in Hv. simpl in Hv.
      by simplify_eq. }
    split; [by rewrite Hl2, Hl1, <- app_assoc|]. split; [done|].
    destruct Hclose as [[-> ->]|(own & frag & -> & ->)].
    + left. by rewrite Hl1.
    + right. exists own, frag. split; [done|].
      by rewrite Hl1, <- app_assoc.
  - apply replace_line_feed.
  - intros s. eexists. split.
    + exec. rewrite last_snoc. simpl. reflexivity.
    + reflexivity.
  - eexists. split; [vm_compute; reflexivity | reflexivity].
  - eexists. split; [vm_compute; reflexivity | reflexivity].
Qed.

Lemma list_item_reindents_own_content_witness :
  let s :=
    set_list_item_starts [1]
      (set_indents [2; 2]
         (set_bullets ["-"; "-"]
            (set_list_level 2 (Sample.state ["- "; "A"; sep_lines])))) in
  let children := [Sample.para ("B" +:+ Py.nl +:+ "C")] in
  let s' :=
    set_markdown_lines
      ["- "; "A"; sep_lines; "- "; "B" +:+ Py.nl +:+ "  C"; "  "; Py.nl]
      s in
  exists bullet w s2 content,
    last (bullets s) = Some bullet /\
    last (indents s) = Some w /\
    translate_events (H := Sample.utils)
      (Visit list_item :: flat_map walkabout children) s
      = Return tt s2 /\
    list_item_starts s2 =
      list_item_starts s ++ [length (markdown_lines s ++ [bullet +:+ " "])] /\
    markdown_lines s2 = markdown_lines s ++ [bullet +:+ " "] ++ content /\
    translate_tree (H := Sample.utils) (Tree list_item children) s
      = Return tt s' /\
    (content = [] /\
     markdown_lines s' = markdown_lines s ++ [bullet +:+ " "] \/
     exists own frag,
       content = own ++ [frag] /\
       markdown_lines s' =
         markdown_lines s ++ [bullet +:+ " "] ++
         reindented (Py.repeat indent_char (Z.of_nat w)) own frag).
Proof.
  intros s children s'.
  destruct (list_item_reindents_own_content (H := Sample.utils))
    as (Hframe & _).
  apply (Hframe children s s'). intros x. vm_compute. reflexivity.
Defined.

(** * The account of the buffers *)

Section VisibleFacts.
Import Py.


Lemma join_singleton x : join EmptyString [x] = x.
Proof. reflexivity. Qed.



Lemma visible_empty_all_space t :
  visible t = EmptyString -> all_space t = true.
Proof.
  induction t as [|c t IH]; [done|]. simpl.
  destruct (isspace c); simpl; [exact IH|done].
Qed.





End VisibleFacts.

Section Account.
Context `{Utils}.
Import JupyterCodeTranslator.









End Account.

Section Conservation.
Context `{Utils}.
Import JupyterCodeTranslator.




End Conservation.

Section ConservationRuns.
Context `{Utils}.
Import JupyterCodeTranslator.




End ConservationRuns.



